(** * UniFi dynamic inventory: the inventory builder of [unifi_inventory.py]

    A shallow embedding of [UnifiInventory.__init__], [authenticate],
    [get_devices], [get_clients], [build_inventory] and [run], and the
    properties of the inventory document they produce.

    Modelling choices.
    - A Python object decoded from JSON is a [value]: [None], [bool], [int],
      [str], [list] and [dict].  JSON numbers with a fractional part are not
      represented; every number is an [int].
    - A [dict] is an association list in insertion order.  Look-up and
      item assignment follow Python: keys are compared with [==] (so [True]
      and [1] are one key), an assignment to a key already present keeps the
      stored key and its position, and a [list] or [dict] used as a key
      raises [TypeError].  A list that repeats a key stands for the [dict]
      of its first bindings; item assignment never produces one.
    - The nested objects of the inventory are each referenced from one place
      only, so an in-place update such as [inventory['switches']['hosts']
      .append(h)] is the functional update of the path it goes through.
    - The controller is a record of the outcomes of the three HTTP calls.
      [str(e)] and [json.dumps] are not embedded: a line written to standard
      error keeps its exception symbolic, and standard output is the list
      of documents handed to [print(json.dumps(...))]. *)

From Stdlib Require Import List String ZArith Bool Lia.
Import ListNotations.
Local Open Scope string_scope.
Local Open Scope list_scope.

(** ** Python values and exceptions *)

#[warnings="-register-all"]
Inductive value : Type :=
| VNone
| VBool (b : bool)
| VInt (n : Z)
| VStr (s : string)
| VList (items : list value)
| VDict (items : list (value * value)).

(** The subclasses of [Exception] that the program can meet. *)
Inductive exception : Type :=
| TypeError
| AttributeError
| KeyError
| IndexError
| ValueError
| RequestException (msg : string).

Inductive result (A : Type) : Type :=
| Ok (a : A)
| Raise (e : exception).
Arguments Ok {A} a.
Arguments Raise {A} e.

Definition bind {A B : Type} (c : result A) (k : A -> result B) : result B :=
  match c with
  | Ok a => k a
  | Raise e => Raise e
  end.

Notation "x <- c ;; k" := (bind c (fun x => k))
  (at level 61, c at next level, right associativity).

Module Py.

(** [bool(v)]. *)
Definition truthy (v : value) : bool :=
  match v with
  | VNone => false
  | VBool b => b
  | VInt n => negb (n =? 0)%Z
  | VStr s => negb (s =? "")
  | VList l => match l with [] => false | _ => true end
  | VDict d => match d with [] => false | _ => true end
  end.

(** Whether [hash(v)] succeeds. *)
Definition hashable (v : value) : bool :=
  match v with
  | VList _ | VDict _ => false
  | _ => true
  end.

(** [a == b] between two hashable values; [bool] is a subclass of [int]. *)
Definition key_eqb (a b : value) : bool :=
  match a, b with
  | VNone, VNone => true
  | VBool x, VBool y => Bool.eqb x y
  | VBool x, VInt n => (Z.b2z x =? n)%Z
  | VInt n, VBool y => (n =? Z.b2z y)%Z
  | VInt n, VInt m => (n =? m)%Z
  | VStr s, VStr t => (s =? t)
  | _, _ => false
  end.

(** [v == 'literal']: only a [str] of the same characters is equal to it. *)
Definition eq_str (v : value) (lit : string) : bool :=
  match v with
  | VStr s => (s =? lit)
  | _ => false
  end.

(** Look-up of a hashable key in the items of a [dict]. *)
Fixpoint dict_get (k : value) (d : list (value * value)) : option value :=
  match d with
  | [] => None
  | (k', v) :: rest => if key_eqb k' k then Some v else dict_get k rest
  end.

(** [k in d]. *)
Definition dict_mem (k : value) (d : list (value * value)) : bool :=
  match dict_get k d with
  | Some _ => true
  | None => false
  end.

(** The items after [d[k] = v], for a hashable [k]. *)
Fixpoint dict_set (k v : value) (d : list (value * value))
  : list (value * value) :=
  match d with
  | [] => [(k, v)]
  | (k', v') :: rest =>
      if key_eqb k' k then (k', v) :: rest else (k', v') :: dict_set k v rest
  end.

(** [obj.get(key, default)] with a [str] literal as key. *)
Definition get (obj : value) (key : string) (default : value) : result value :=
  match obj with
  | VDict d =>
      match dict_get (VStr key) d with
      | Some v => Ok v
      | None => Ok default
      end
  | _ => Raise AttributeError
  end.

(** [obj[key]] with a [str] literal as key. *)
Definition getitem (obj : value) (key : string) : result value :=
  match obj with
  | VDict d =>
      match dict_get (VStr key) d with
      | Some v => Ok v
      | None => Raise KeyError
      end
  | _ => Raise TypeError
  end.

(** The index a [list] of length [len] is accessed at. *)
Definition list_index (i : Z) (len : nat) : option nat :=
  let n := Z.of_nat len in
  if (0 <=? i)%Z && (i <? n)%Z then Some (Z.to_nat i)
  else if (- n <=? i)%Z && (i <? 0)%Z then Some (Z.to_nat (i + n))
  else None.

Fixpoint list_set (i : nat) (v : value) (l : list value) : list value :=
  match l, i with
  | [], _ => []
  | _ :: rest, O => v :: rest
  | x :: rest, S j => x :: list_set j v rest
  end.

(** The object after [obj[key] = v]. *)
Definition setitem (obj key v : value) : result value :=
  match obj with
  | VDict d =>
      if hashable key then Ok (VDict (dict_set key v d)) else Raise TypeError
  | VList l =>
      match key with
      | VInt i =>
          match list_index i (List.length l) with
          | Some j => Ok (VList (list_set j v l))
          | None => Raise IndexError
          end
      | VBool b =>
          match list_index (Z.b2z b) (List.length l) with
          | Some j => Ok (VList (list_set j v l))
          | None => Raise IndexError
          end
      | _ => Raise TypeError
      end
  | _ => Raise TypeError
  end.

(** The object after [obj.append(v)]. *)
Definition append (obj v : value) : result value :=
  match obj with
  | VList l => Ok (VList (l ++ [v]))
  | _ => Raise AttributeError
  end.

(** The elements a [for] loop over [obj] visits. *)
Definition iter (obj : value) : result (list value) :=
  match obj with
  | VList l => Ok l
  | VDict d => Ok (map fst d)
  | VStr s => Ok (map (fun c => VStr (String c EmptyString))
                      (list_ascii_of_string s))
  | _ => Raise TypeError
  end.

(** An update in place of the object stored under [key] in [obj]:
    [obj[key]] is read, [f] is what happens to it, and [obj] then holds the
    result under the same key. *)
Definition update_at (obj : value) (key : string)
    (f : value -> result value) : result value :=
  sub <- getitem obj key ;;
  sub' <- f sub ;;
  setitem obj (VStr key) sub'.

End Py.

Import Py.

(** ** The controller, as seen through [requests] *)

(** What an HTTP call does: it raises, or it returns a response with a
    status code and a body on which [response.json()] returns or raises. *)
Inductive http_outcome : Type :=
| Raises (e : exception)
| Returns (status_code : Z) (json : result value).

(** [credential] is the outcome of
    [b64decode(self.password).decode('utf-8')], [login] of the POST to
    [/api/login], [stat_device] and [stat_sta] of the two GET requests. *)
Record controller : Type := {
  credential : result string;
  login : http_outcome;
  stat_device : http_outcome;
  stat_sta : http_outcome
}.

(** A line on standard error: a fixed text, the text of an f-string that
    ends in [str(e)], or the traceback of an exception nobody caught. *)
Inductive diagnostic : Type :=
| Message (text : string)
| Failure (prefix : string) (e : exception)
| Traceback (e : exception).

(** ** [UnifiInventory] *)

Definition authenticate (c : controller) : bool * list diagnostic :=
  match credential c with
  | Raise e => (false, [Failure "Authentication failed: " e])
  | Ok password =>
      match login c with
      | Raises e => (false, [Failure "Authentication failed: " e])
      | Returns status_code _ => ((status_code =? 200)%Z, [])
      end
  end.

Definition get_devices (c : controller) : value * list diagnostic :=
  match stat_device c with
  | Raises e => (VList [], [Failure "Failed to fetch devices: " e])
  | Returns status_code json =>
      if (status_code =? 200)%Z then
        match (body <- json ;; get body "data" (VList [])) with
        | Ok data => (data, [])
        | Raise e => (VList [], [Failure "Failed to fetch devices: " e])
        end
      else (VList [], [])
  end.

Definition get_clients (c : controller) : value * list diagnostic :=
  match stat_sta c with
  | Raises e => (VList [], [Failure "Failed to fetch clients: " e])
  | Returns status_code json =>
      if (status_code =? 200)%Z then
        match (body <- json ;; get body "data" (VList [])) with
        | Ok data => (data, [])
        | Raise e => (VList [], [Failure "Failed to fetch clients: " e])
        end
      else (VList [], [])
  end.

(** The dictionary literal [build_inventory] starts from. *)
Definition skeleton : value :=
  VDict
    [ (VStr "_meta", VDict [ (VStr "hostvars", VDict []) ]);
      (VStr "all",
       VDict [ (VStr "children",
                VList [VStr "unifi_devices"; VStr "unifi_clients"]) ]);
      (VStr "unifi_devices",
       VDict [ (VStr "children",
                VList [VStr "switches"; VStr "aps"; VStr "gateways"]) ]);
      (VStr "switches", VDict [ (VStr "hosts", VList []) ]);
      (VStr "aps", VDict [ (VStr "hosts", VList []) ]);
      (VStr "gateways", VDict [ (VStr "hosts", VList []) ]);
      (VStr "unifi_clients",
       VDict [ (VStr "children",
                VList [VStr "wired_clients"; VStr "wireless_clients"]) ]);
      (VStr "wired_clients", VDict [ (VStr "hosts", VList []) ]);
      (VStr "wireless_clients", VDict [ (VStr "hosts", VList []) ]) ].

(** [inventory['_meta']['hostvars'][hostname] = vars]. *)
Definition set_hostvars (inventory hostname vars : value) : result value :=
  update_at inventory "_meta" (fun meta =>
    update_at meta "hostvars" (fun hostvars =>
      setitem hostvars hostname vars)).

(** [inventory[group]['hosts'].append(hostname)]. *)
Definition append_host (inventory : value) (group : string) (hostname : value)
  : result value :=
  update_at inventory group (fun g =>
    update_at g "hosts" (fun hosts => append hosts hostname)).

(** The body of the loop over the devices. *)
Definition process_device (inventory device : value) : result value :=
  name <- get device "name" VNone ;;
  hostname <- (if truthy name then Ok name else get device "mac" VNone) ;;
  device_type <- get device "type" (VStr "unknown") ;;
  mac <- get device "mac" VNone ;;
  ip <- get device "ip" VNone ;;
  model <- get device "model" VNone ;;
  version <- get device "version" VNone ;;
  state <- get device "state" (VInt 1) ;;
  inventory <- set_hostvars inventory hostname
    (VDict [ (VStr "mac_address", mac);
             (VStr "ip_address", ip);
             (VStr "model", model);
             (VStr "version", version);
             (VStr "device_type", device_type);
             (VStr "adoption_state", state);
             (VStr "unifi_device", VBool true) ]) ;;
  if eq_str device_type "usw" then append_host inventory "switches" hostname
  else if eq_str device_type "uap" then append_host inventory "aps" hostname
  else if eq_str device_type "ugw" then
    append_host inventory "gateways" hostname
  else Ok inventory.

(** The body of the loop over the clients. *)
Definition process_client (inventory client : value) : result value :=
  name <- get client "hostname" VNone ;;
  hostname <- (if truthy name then Ok name else get client "mac" VNone) ;;
  is_wired <- get client "is_wired" (VBool false) ;;
  mac <- get client "mac" VNone ;;
  ip <- get client "ip" VNone ;;
  hostname' <- get client "hostname" VNone ;;
  last_seen <- get client "last_seen" VNone ;;
  inventory <- set_hostvars inventory hostname
    (VDict [ (VStr "mac_address", mac);
             (VStr "ip_address", ip);
             (VStr "hostname", hostname');
             (VStr "is_wired", is_wired);
             (VStr "last_seen", last_seen);
             (VStr "unifi_client", VBool true) ]) ;;
  if truthy is_wired then append_host inventory "wired_clients" hostname
  else append_host inventory "wireless_clients" hostname.

(** A [for] loop whose body updates the inventory. *)
Fixpoint for_each (body : value -> value -> result value)
    (inventory : value) (items : list value) : result value :=
  match items with
  | [] => Ok inventory
  | item :: rest =>
      inventory' <- body inventory item ;;
      for_each body inventory' rest
  end.

(** The result of [build_inventory] and what it wrote to standard error.
    [get_clients] is called once the devices are done. *)
Definition build_inventory (c : controller) : result value * list diagnostic :=
  let inventory := skeleton in
  let (devices, err1) := get_devices c in
  match (items <- iter devices ;; for_each process_device inventory items) with
  | Raise e => (Raise e, err1)
  | Ok inventory =>
      let (clients, err2) := get_clients c in
      (items <- iter clients ;; for_each process_client inventory items,
       err1 ++ err2)
  end.

(** What the process leaves behind. *)
Record outcome : Type := {
  stdout : list value;
  stderr : list diagnostic;
  exit_status : Z
}.

(** [run], up to the end of the process: [sys.exit(text)] writes [text] to
    standard error and ends the process with status 1, as does an exception
    that nobody catches, with its traceback. *)
Definition run (c : controller) : outcome :=
  let (authenticated, err) := authenticate c in
  if negb authenticated then
    {| stdout := [];
       stderr := err ++ [Message "Authentication failed"];
       exit_status := 1 |}
  else
    let (built, err') := build_inventory c in
    match built with
    | Ok inventory =>
        {| stdout := [inventory]; stderr := err ++ err'; exit_status := 0 |}
    | Raise e =>
        {| stdout := [];
           stderr := err ++ err' ++ [Traceback e];
           exit_status := 1 |}
    end.

(** ** The inventory as its six variable parts *)

(** The parts of the document that [build_inventory] changes. *)
Record state : Type := {
  hostvars : list (value * value);
  switches : list value;
  aps : list value;
  gateways : list value;
  wired_clients : list value;
  wireless_clients : list value
}.

Definition empty : state :=
  {| hostvars := []; switches := []; aps := []; gateways := [];
     wired_clients := []; wireless_clients := [] |}.

(** The document whose variable parts are [s]. *)
Definition document (s : state) : value :=
  VDict
    [ (VStr "_meta", VDict [ (VStr "hostvars", VDict (hostvars s)) ]);
      (VStr "all",
       VDict [ (VStr "children",
                VList [VStr "unifi_devices"; VStr "unifi_clients"]) ]);
      (VStr "unifi_devices",
       VDict [ (VStr "children",
                VList [VStr "switches"; VStr "aps"; VStr "gateways"]) ]);
      (VStr "switches", VDict [ (VStr "hosts", VList (switches s)) ]);
      (VStr "aps", VDict [ (VStr "hosts", VList (aps s)) ]);
      (VStr "gateways", VDict [ (VStr "hosts", VList (gateways s)) ]);
      (VStr "unifi_clients",
       VDict [ (VStr "children",
                VList [VStr "wired_clients"; VStr "wireless_clients"]) ]);
      (VStr "wired_clients", VDict [ (VStr "hosts", VList (wired_clients s)) ]);
      (VStr "wireless_clients",
       VDict [ (VStr "hosts", VList (wireless_clients s)) ]) ].

(** [record.get(key, default)] on the items of a [dict]. *)
Definition field (record : list (value * value)) (key : string)
    (default : value) : value :=
  match dict_get (VStr key) record with
  | Some v => v
  | None => default
  end.

(** [a or b]. *)
Definition or_else (a b : value) : value := if truthy a then a else b.

Definition device_hostname (device : list (value * value)) : value :=
  or_else (field device "name" VNone) (field device "mac" VNone).

Definition device_type (device : list (value * value)) : value :=
  field device "type" (VStr "unknown").

Definition device_vars (device : list (value * value)) : value :=
  VDict [ (VStr "mac_address", field device "mac" VNone);
          (VStr "ip_address", field device "ip" VNone);
          (VStr "model", field device "model" VNone);
          (VStr "version", field device "version" VNone);
          (VStr "device_type", device_type device);
          (VStr "adoption_state", field device "state" (VInt 1));
          (VStr "unifi_device", VBool true) ].

Definition client_hostname (client : list (value * value)) : value :=
  or_else (field client "hostname" VNone) (field client "mac" VNone).

Definition client_is_wired (client : list (value * value)) : bool :=
  truthy (field client "is_wired" (VBool false)).

Definition client_vars (client : list (value * value)) : value :=
  VDict [ (VStr "mac_address", field client "mac" VNone);
          (VStr "ip_address", field client "ip" VNone);
          (VStr "hostname", field client "hostname" VNone);
          (VStr "is_wired", field client "is_wired" (VBool false));
          (VStr "last_seen", field client "last_seen" VNone);
          (VStr "unifi_client", VBool true) ].

(** The sub-group a device of this type goes to, if any. *)
Definition device_group (t : value) : option string :=
  if eq_str t "usw" then Some "switches"
  else if eq_str t "uap" then Some "aps"
  else if eq_str t "ugw" then Some "gateways"
  else None.

Definition client_group (wired : bool) : string :=
  if wired then "wired_clients" else "wireless_clients".

(** [group]'s [hosts] list with [h] at its end. *)
Definition push (group : string) (h : value) (s : state) : state :=
  {| hostvars := hostvars s;
     switches := if group =? "switches" then switches s ++ [h] else switches s;
     aps := if group =? "aps" then aps s ++ [h] else aps s;
     gateways := if group =? "gateways" then gateways s ++ [h] else gateways s;
     wired_clients :=
       if group =? "wired_clients" then wired_clients s ++ [h]
       else wired_clients s;
     wireless_clients :=
       if group =? "wireless_clients" then wireless_clients s ++ [h]
       else wireless_clients s |}.

Definition assign (h vars : value) (s : state) : state :=
  {| hostvars := dict_set h vars (hostvars s);
     switches := switches s;
     aps := aps s;
     gateways := gateways s;
     wired_clients := wired_clients s;
     wireless_clients := wireless_clients s |}.

(** One turn of the loop over the devices, on the variable parts. *)
Definition step_device (s : state) (device : value) : result state :=
  match device with
  | VDict d =>
      let h := device_hostname d in
      if hashable h then
        let s' := assign h (device_vars d) s in
        match device_group (device_type d) with
        | Some g => Ok (push g h s')
        | None => Ok s'
        end
      else Raise TypeError
  | _ => Raise AttributeError
  end.

(** One turn of the loop over the clients, on the variable parts. *)
Definition step_client (s : state) (client : value) : result state :=
  match client with
  | VDict d =>
      let h := client_hostname d in
      if hashable h then
        Ok (push (client_group (client_is_wired d)) h
              (assign h (client_vars d) s))
      else Raise TypeError
  | _ => Raise AttributeError
  end.

Fixpoint steps (step : state -> value -> result state) (s : state)
    (items : list value) : result state :=
  match items with
  | [] => Ok s
  | item :: rest => s' <- step s item ;; steps step s' rest
  end.

(** The variable parts of the document built from what the two fetches
    returned. *)
Definition assemble (devices clients : value) : result state :=
  ds <- iter devices ;;
  s <- steps step_device empty ds ;;
  cs <- iter clients ;;
  steps step_client s cs.

(** ** Reading a document *)

(** [doc['_meta']['hostvars']]. *)
Definition doc_hostvars (doc : value) : result value :=
  meta <- getitem doc "_meta" ;; getitem meta "hostvars".

(** [doc[group]['hosts']]. *)
Definition doc_hosts (doc : value) (group : string) : result value :=
  g <- getitem doc group ;; getitem g "hosts".

Definition device_groups : list string := ["switches"; "aps"; "gateways"].
Definition client_groups : list string := ["wired_clients"; "wireless_clients"].
Definition host_groups : list string := device_groups ++ client_groups.

(** The [hosts] list of a group, on the variable parts. *)
Definition hosts (s : state) (group : string) : list value :=
  if group =? "switches" then switches s
  else if group =? "aps" then aps s
  else if group =? "gateways" then gateways s
  else if group =? "wired_clients" then wired_clients s
  else if group =? "wireless_clients" then wireless_clients s
  else [].

(** A key that is [None] or a [str] is equal to itself only. *)
Definition plain (k : value) : bool :=
  match k with
  | VNone | VStr _ => true
  | _ => false
  end.

(** ** What the claims speak of *)

(** The identifiers the devices in [items] add to [group], in order. *)
Definition device_hosts (group : string) (items : list value) : list value :=
  flat_map (fun x =>
    match x with
    | VDict d =>
        match device_group (device_type d) with
        | Some g => if group =? g then [device_hostname d] else []
        | None => []
        end
    | _ => []
    end) items.

(** The identifiers the clients in [items] add to [group], in order. *)
Definition client_hosts (group : string) (items : list value) : list value :=
  flat_map (fun x =>
    match x with
    | VDict d =>
        if group =? client_group (client_is_wired d)
        then [client_hostname d] else []
    | _ => []
    end) items.

(** The type codes [build_inventory] knows. *)
Definition type_codes : list string := ["usw"; "uap"; "ugw"].

(** The keys of the two kinds of variable mapping, in the order written. *)
Definition device_keys : list value :=
  [ VStr "mac_address"; VStr "ip_address"; VStr "model"; VStr "version";
    VStr "device_type"; VStr "adoption_state"; VStr "unifi_device" ].

Definition client_keys : list value :=
  [ VStr "mac_address"; VStr "ip_address"; VStr "hostname"; VStr "is_wired";
    VStr "last_seen"; VStr "unifi_client" ].

(** What a variable mapping looks like: the keys of its kind, its own
    marker [True], and no marker of the other kind. *)
Definition device_entry (e : value) : Prop :=
  exists vars,
    e = VDict vars /\
    map fst vars = device_keys /\
    dict_get (VStr "unifi_device") vars = Some (VBool true) /\
    dict_get (VStr "unifi_client") vars = None.

Definition client_entry (e : value) : Prop :=
  exists vars,
    e = VDict vars /\
    map fst vars = client_keys /\
    dict_get (VStr "unifi_client") vars = Some (VBool true) /\
    dict_get (VStr "unifi_device") vars = None.

(** Every value of [hostvars] was written whole by one turn of a loop. *)
Definition entries_whole (s : state) : Prop :=
  forall k e, In (k, e) (hostvars s) -> device_entry e \/ client_entry e.

(** A call that raised, or returned a status other than 200. *)
Definition failed (o : http_outcome) : bool :=
  match o with
  | Raises _ => true
  | Returns status_code _ => negb (status_code =? 200)%Z
  end.

(** A fetch that failed: the request raised, the status is not 200, or
    [response.json().get('data', [])] raised. *)
Definition fetch_failed (o : http_outcome) : bool :=
  match o with
  | Raises _ => true
  | Returns status_code json =>
      negb (status_code =? 200)%Z ||
      match (body <- json ;; get body "data" (VList [])) with
      | Ok _ => false
      | Raise _ => true
      end
  end.

(** What a fetch hands to the loops: nothing when it failed, and the list
    under [data] when it was answered with status 200 and a dictionary. *)
Definition fetched (o : http_outcome) (records : list value) : Prop :=
  (fetch_failed o = true /\ records = []) \/
  (exists body,
     o = Returns 200 (Ok (VDict body)) /\
     dict_get (VStr "data") body = Some (VList records)).

(** A successful answer that lists no record. *)
Definition no_records : http_outcome :=
  Returns 200 (Ok (VDict [ (VStr "data", VList []) ])).

(** The controller in which each failed fetch is replaced by a successful
    one without records. *)
Definition quiet (c : controller) : controller :=
  {| credential := credential c;
     login := login c;
     stat_device :=
       if fetch_failed (stat_device c) then no_records else stat_device c;
     stat_sta :=
       if fetch_failed (stat_sta c) then no_records else stat_sta c |}.

(** Authentication fails: decoding the credential raises, the login
    request raises, or its status is not 200. *)
Definition authentication_fails (c : controller) : Prop :=
  (exists e, credential c = Raise e) \/ failed (login c) = true.

(** A record the loops accept: a [dict] whose identifier can be a key. *)
Definition device_accepted (x : value) : bool :=
  match x with
  | VDict d => hashable (device_hostname d)
  | _ => false
  end.

Definition client_accepted (x : value) : bool :=
  match x with
  | VDict d => hashable (client_hostname d)
  | _ => false
  end.

(** ** Sample controllers and records *)

(** A controller whose two fetches return [devices] and [clients]. *)
Definition serving (devices clients : value) : controller :=
  {| credential := Ok "secret";
     login := Returns 200 (Ok (VDict []));
     stat_device := Returns 200 (Ok (VDict [ (VStr "data", devices) ]));
     stat_sta := Returns 200 (Ok (VDict [ (VStr "data", clients) ])) |}.

Definition sw1 : list (value * value) :=
  [ (VStr "name", VStr "sw1"); (VStr "mac", VStr "aa:bb");
    (VStr "type", VStr "usw"); (VStr "ip", VStr "10.0.0.1") ].

Definition laptop : list (value * value) :=
  [ (VStr "hostname", VNone); (VStr "mac", VStr "cc:dd");
    (VStr "is_wired", VBool false) ].

Definition small_site : controller :=
  serving (VList [VDict sw1]) (VList [VDict laptop]).

Definition small_site_document : value :=
  Eval vm_compute in
    match fst (build_inventory small_site) with
    | Ok doc => doc
    | Raise _ => VNone
    end.

Definition camera : list (value * value) :=
  [ (VStr "name", VStr "host1"); (VStr "mac", VStr "aa:bb");
    (VStr "type", VStr "uvc"); (VStr "ip", VStr "10.0.0.7") ].

Definition desktop : list (value * value) :=
  [ (VStr "hostname", VStr "host1"); (VStr "mac", VStr "cc:dd");
    (VStr "is_wired", VBool true); (VStr "ip", VStr "10.0.0.8") ].

Definition collision_site : controller :=
  serving (VList [VDict camera]) (VList [VDict desktop]).

Definition collision_document : value :=
  Eval vm_compute in
    match fst (build_inventory collision_site) with
    | Ok doc => doc
    | Raise _ => VNone
    end.

Definition core_switch : list (value * value) :=
  [ (VStr "name", VStr "core"); (VStr "mac", VStr "aa:01");
    (VStr "type", VStr "usw") ].

Definition core_other : list (value * value) :=
  [ (VStr "name", VStr "core"); (VStr "mac", VStr "aa:02");
    (VStr "type", VStr "uxg") ].

Definition shared_name_site : controller :=
  serving (VList [VDict core_switch; VDict core_other]) (VList []).

Definition shared_name_document : value :=
  Eval vm_compute in
    match fst (build_inventory shared_name_site) with
    | Ok doc => doc
    | Raise _ => VNone
    end.

Definition bare_switch : list (value * value) :=
  [ (VStr "type", VStr "usw"); (VStr "ip", VStr "10.0.0.2") ].

Definition bare_client : list (value * value) :=
  [ (VStr "ip", VStr "10.0.0.9") ].

Definition nameless_ap : list (value * value) :=
  [ (VStr "mac", VStr "aa:04"); (VStr "type", VStr "uap") ].

Definition fallback_site : controller :=
  serving (VList [VDict bare_switch; VDict nameless_ap])
          (VList [VDict bare_client; VDict laptop]).

Definition fallback_document : value :=
  Eval vm_compute in
    match fst (build_inventory fallback_site) with
    | Ok doc => doc
    | Raise _ => VNone
    end.

Definition twin_site : controller :=
  serving (VList [VDict sw1; VDict sw1]) (VList [VDict laptop; VDict laptop]).

Definition twin_document : value :=
  Eval vm_compute in
    match fst (build_inventory twin_site) with
    | Ok doc => doc
    | Raise _ => VNone
    end.

Definition devices_down : controller :=
  {| credential := Ok "secret";
     login := Returns 200 (Ok (VDict []));
     stat_device := Raises (RequestException "connection refused");
     stat_sta := Returns 200 (Ok (VDict [ (VStr "data", VList [VDict laptop]) ]))
  |}.

Definition unauthorized : controller :=
  {| credential := Ok "secret";
     login := Returns 401 (Ok (VDict []));
     stat_device := Returns 200 (Ok (VDict [ (VStr "data", VList [VDict sw1]) ]));
     stat_sta := Returns 200 (Ok (VDict [ (VStr "data", VList [VDict laptop]) ]))
  |}.

(** ** Start-up: [__init__] and the main block *)

(** [os.getenv(name, default)] on an environment. *)
Definition getenv (environ : string -> option string) (name default : string)
  : string :=
  match environ name with
  | Some v => v
  | None => default
  end.

(** [bool(v)] for what [os.getenv(name)] returns, a [str] or [None]. *)
Definition set_and_not_empty (v : option string) : bool :=
  match v with
  | Some s => negb (s =? "")
  | None => false
  end.

(** [str.lower] on the letters [A] to [Z].  A [string] here is a string of
    bytes; no other character has one of the letters of ['true'] or ['yes']
    as its lower case, so the membership test below is Python's. *)
Definition lower_ascii (c : Ascii.ascii) : Ascii.ascii :=
  let n := Ascii.nat_of_ascii c in
  if (65 <=? n)%nat && (n <=? 90)%nat then Ascii.ascii_of_nat (n + 32) else c.

Fixpoint lower (s : string) : string :=
  match s with
  | EmptyString => EmptyString
  | String c rest => String (lower_ascii c) (lower rest)
  end.

(** The attributes [__init__] sets; [verify] is [self.session.verify]. *)
Record config : Type := {
  controller_host : string;
  controller_port : string;
  site : string;
  username : option string;
  password : option string;
  allow_insecure : bool;
  base_url : string;
  verify : bool
}.

(** How [__init__] ends: [sys.exit(msg)], or an instance. *)
Inductive started : Type :=
| Exit (msg : string)
| Instance (cfg : config).

Definition init (environ : string -> option string) : started :=
  let controller_host := getenv environ "UNIFI_HOST" "ctrl.bitswalk.net" in
  let controller_port := getenv environ "UNIFI_PORT" "8443" in
  let site := getenv environ "UNIFI_SITE" "default" in
  let username := environ "UNIFI_USERNAME" in
  let password := environ "UNIFI_PASSWORD" in
  let allow_insecure :=
    existsb (String.eqb (lower (getenv environ "UNIFI_ALLOW_INSECURE" "")))
            ["true"; "1"; "yes"] in
  if negb (set_and_not_empty username && set_and_not_empty password) then
    Exit "Missing required environment variables UNIFI_USERNAME or UNIFI_PASSWORD"
  else
    Instance
      {| controller_host := controller_host;
         controller_port := controller_port;
         site := site;
         username := username;
         password := password;
         allow_insecure := allow_insecure;
         base_url :=
           String.append "https://"
             (String.append controller_host
                (String.append ":" controller_port));
         verify := if allow_insecure then false else true |}.

(** [UnifiInventory().run()], once [parse_args] has returned.  [world] is
    what the controller answers to an instance with this configuration. *)
Definition main_block (environ : string -> option string)
    (world : config -> controller) : outcome :=
  match init environ with
  | Exit msg => {| stdout := []; stderr := [Message msg]; exit_status := 1 |}
  | Instance cfg => run (world cfg)
  end.

(** ** What the further properties speak of *)

(** The assignments to [hostvars] that the records in [items] cause, in
    order: the key and the variable mapping. *)
Definition device_writes (items : list value) : list (value * value) :=
  flat_map (fun x =>
    match x with
    | VDict d => [(device_hostname d, device_vars d)]
    | _ => []
    end) items.

Definition client_writes (items : list value) : list (value * value) :=
  flat_map (fun x =>
    match x with
    | VDict d => [(client_hostname d, client_vars d)]
    | _ => []
    end) items.

(** The dictionary after a sequence of assignments. *)
Definition assign_all (ws : list (value * value)) (d : list (value * value))
  : list (value * value) :=
  fold_left (fun acc kv => dict_set (fst kv) (snd kv) acc) ws d.

(** The keys of a dictionary are hashable and no two of them are equal. *)
Definition keys_proper (d : list (value * value)) : Prop :=
  Forall (fun k => hashable k = true) (map fst d) /\
  ForallOrdPairs (fun a b => key_eqb a b = false) (map fst d).

(** The value of the last assignment in [ws] whose key equals [h]. *)
Definition last_write (h : value) (ws : list (value * value)) : option value :=
  fold_left (fun acc kv => if key_eqb (fst kv) h then Some (snd kv) else acc)
            ws None.

(** The exception a record that is not accepted raises. *)
Definition rejection (x : value) : exception :=
  match x with
  | VDict _ => TypeError
  | _ => AttributeError
  end.

(** The controller [c] with other outcomes for its two fetches. *)
Definition with_fetches (c : controller) (devices clients : http_outcome)
  : controller :=
  {| credential := credential c;
     login := login c;
     stat_device := devices;
     stat_sta := clients |}.

Definition top_level_keys : list value :=
  [ VStr "_meta"; VStr "all"; VStr "unifi_devices"; VStr "switches";
    VStr "aps"; VStr "gateways"; VStr "unifi_clients";
    VStr "wired_clients"; VStr "wireless_clients" ].

(** Whether the type code of a device record selects a sub-group. *)
Definition grouped (x : value) : bool :=
  match x with
  | VDict d =>
      match device_group (device_type d) with
      | Some _ => true
      | None => false
      end
  | _ => false
  end.

(** ** Further sample controllers and records *)

Definition odd_site : controller :=
  serving (VList [VDict sw1; VInt 7; VDict laptop]) (VList [VDict laptop]).

Definition null_data_site : controller :=
  {| credential := Ok "secret";
     login := Returns 200 (Ok (VDict []));
     stat_device := Returns 200 (Ok (VDict [ (VStr "data", VNone) ]));
     stat_sta := Raises (RequestException "timed out") |}.

Definition unnamed_switch : list (value * value) :=
  [ (VStr "name", VStr ""); (VStr "mac", VStr "aa:03");
    (VStr "type", VStr "usw") ].

Definition unnamed_site : controller :=
  serving (VList [VDict unnamed_switch]) (VList [VDict laptop]).

Definition kiosk : list (value * value) :=
  [ (VStr "hostname", VStr "kiosk"); (VStr "mac", VStr "cc:ee");
    (VStr "is_wired", VStr "false") ].

Definition kiosk_site : controller :=
  serving (VList []) (VList [VDict kiosk; VDict laptop]).

Definition kiosk_document : value :=
  Eval vm_compute in
    match fst (build_inventory kiosk_site) with
    | Ok doc => doc
    | Raise _ => VNone
    end.

Definition no_environment : string -> option string := fun _ => None.

Definition lab_environment : string -> option string :=
  fun name =>
    if name =? "UNIFI_USERNAME" then Some "admin"
    else if name =? "UNIFI_PASSWORD" then Some "c2VjcmV0"
    else if name =? "UNIFI_ALLOW_INSECURE" then Some "Yes"
    else None.

(** ** The loop bodies act on the variable parts only *)

Lemma skeleton_document : skeleton = document empty.
Proof. reflexivity. Qed.

Lemma get_dict (d : list (value * value)) (key : string) (default : value) :
  get (VDict d) key default = Ok (field d key default).
Proof. unfold get, field. now destruct (dict_get (VStr key) d). Qed.

Lemma set_hostvars_document (s : state) (h vars : value) :
  set_hostvars (document s) h vars =
  if hashable h then Ok (document (assign h vars s)) else Raise TypeError.
Proof.
  unfold set_hostvars, update_at, document. cbn.
  destruct (hashable h); reflexivity.
Qed.

Lemma append_host_document (s : state) (g : string) (h : value) :
  In g ["switches"; "aps"; "gateways"; "wired_clients"; "wireless_clients"] ->
  append_host (document s) g h = Ok (document (push g h s)).
Proof.
  intros Hg. cbn in Hg.
  destruct Hg as [<- | [<- | [<- | [<- | [<- | []]]]]]; reflexivity.
Qed.

Lemma device_group_known (t : value) (g : string) :
  device_group t = Some g -> In g ["switches"; "aps"; "gateways"].
Proof.
  unfold device_group.
  destruct (eq_str t "usw"); [intros [= <-]; cbn; auto |].
  destruct (eq_str t "uap"); [intros [= <-]; cbn; auto |].
  destruct (eq_str t "ugw"); [intros [= <-]; cbn; auto | discriminate].
Qed.

Lemma process_device_document (s : state) (device : value) :
  process_device (document s) device =
  (s' <- step_device s device ;; Ok (document s')).
Proof.
  destruct device as [| b | n | str | l | d]; try reflexivity.
  unfold process_device, step_device.
  rewrite !get_dict. cbn [bind].
  replace (if truthy (field d "name" VNone)
           then Ok (field d "name" VNone)
           else Ok (field d "mac" VNone))
    with (@Ok value (device_hostname d))
    by (unfold device_hostname, or_else;
        now destruct (truthy (field d "name" VNone))).
  cbn [bind]. fold (device_type d). fold (device_vars d).
  rewrite set_hostvars_document.
  destruct (hashable (device_hostname d)); [cbn [bind] | reflexivity].
  unfold device_group.
  destruct (eq_str (device_type d) "usw");
    [apply append_host_document; cbn; auto |].
  destruct (eq_str (device_type d) "uap");
    [apply append_host_document; cbn; auto |].
  destruct (eq_str (device_type d) "ugw");
    [apply append_host_document; cbn; auto | reflexivity].
Qed.

Lemma process_client_document (s : state) (client : value) :
  process_client (document s) client =
  (s' <- step_client s client ;; Ok (document s')).
Proof.
  destruct client as [| b | n | str | l | d]; try reflexivity.
  unfold process_client, step_client.
  rewrite !get_dict. cbn [bind].
  replace (if truthy (field d "hostname" VNone)
           then Ok (field d "hostname" VNone)
           else Ok (field d "mac" VNone))
    with (@Ok value (client_hostname d))
    by (unfold client_hostname, or_else;
        now destruct (truthy (field d "hostname" VNone))).
  cbn [bind]. fold (client_vars d). fold (client_is_wired d).
  rewrite set_hostvars_document.
  destruct (hashable (client_hostname d)); [cbn [bind] | reflexivity].
  unfold client_group.
  destruct (client_is_wired d); apply append_host_document; cbn; auto 6.
Qed.

Lemma for_each_device_document (items : list value) (s : state) :
  for_each process_device (document s) items =
  (s' <- steps step_device s items ;; Ok (document s')).
Proof.
  revert s. induction items as [| item rest IH]; intros s; [reflexivity |].
  cbn [for_each steps]. rewrite process_device_document.
  destruct (step_device s item) as [s' | e]; cbn [bind]; [apply IH | reflexivity].
Qed.

Lemma for_each_client_document (items : list value) (s : state) :
  for_each process_client (document s) items =
  (s' <- steps step_client s items ;; Ok (document s')).
Proof.
  revert s. induction items as [| item rest IH]; intros s; [reflexivity |].
  cbn [for_each steps]. rewrite process_client_document.
  destruct (step_client s item) as [s' | e]; cbn [bind]; [apply IH | reflexivity].
Qed.

Lemma build_inventory_assemble (c : controller) :
  fst (build_inventory c) =
  (s <- assemble (fst (get_devices c)) (fst (get_clients c)) ;;
   Ok (document s)).
Proof.
  unfold build_inventory, assemble.
  destruct (get_devices c) as [devices err1].
  destruct (get_clients c) as [clients err2]. cbn [fst].
  destruct (iter devices) as [ds | e]; cbn [bind fst]; [| reflexivity].
  rewrite skeleton_document, for_each_device_document.
  destruct (steps step_device empty ds) as [s | e]; cbn [bind fst];
    [| reflexivity].
  destruct (iter clients) as [cs | e]; cbn [bind fst]; [| reflexivity].
  apply for_each_client_document.
Qed.

Lemma build_inventory_returns (c : controller) (doc : value) :
  fst (build_inventory c) = Ok doc ->
  exists ds s cs s',
    iter (fst (get_devices c)) = Ok ds /\
    steps step_device empty ds = Ok s /\
    iter (fst (get_clients c)) = Ok cs /\
    steps step_client s cs = Ok s' /\
    doc = document s'.
Proof.
  rewrite build_inventory_assemble. unfold assemble.
  destruct (iter (fst (get_devices c))) as [ds | e] eqn:E1; cbn [bind];
    [| discriminate].
  destruct (steps step_device empty ds) as [s | e] eqn:E2; cbn [bind];
    [| discriminate].
  destruct (iter (fst (get_clients c))) as [cs | e] eqn:E3; cbn [bind];
    [| discriminate].
  destruct (steps step_client s cs) as [s' | e] eqn:E4; cbn [bind];
    [| discriminate].
  intros [= <-]. exists ds, s, cs, s'. auto.
Qed.

(** ** Documents and dictionaries *)

Lemma doc_hostvars_document (s : state) :
  doc_hostvars (document s) = Ok (VDict (hostvars s)).
Proof. reflexivity. Qed.

Lemma doc_hosts_document (s : state) (g : string) :
  In g host_groups -> doc_hosts (document s) g = Ok (VList (hosts s g)).
Proof.
  intros Hg. cbn in Hg.
  destruct Hg as [<- | [<- | [<- | [<- | [<- | []]]]]]; reflexivity.
Qed.

Lemma key_eqb_refl (k : value) : hashable k = true -> key_eqb k k = true.
Proof.
  destruct k as [| b | n | s | l | d]; cbn; try discriminate; intros _.
  - reflexivity.
  - now destruct b.
  - apply Z.eqb_refl.
  - apply String.eqb_refl.
Qed.

Lemma dict_get_set_same (k v : value) (d : list (value * value)) :
  hashable k = true -> dict_get k (dict_set k v d) = Some v.
Proof.
  intros Hk. induction d as [| [k' v'] rest IH]; cbn.
  - now rewrite key_eqb_refl.
  - destruct (key_eqb k' k) eqn:E; cbn; rewrite E; [reflexivity | exact IH].
Qed.

Lemma dict_mem_set_same (k v : value) (d : list (value * value)) :
  hashable k = true -> dict_mem k (dict_set k v d) = true.
Proof. intros Hk. unfold dict_mem. now rewrite dict_get_set_same. Qed.

Lemma dict_mem_set_other (k v h : value) (d : list (value * value)) :
  dict_mem h d = true -> dict_mem h (dict_set k v d) = true.
Proof.
  unfold dict_mem. induction d as [| [k' v'] rest IH]; cbn; [discriminate |].
  destruct (key_eqb k' k) eqn:E; cbn; destruct (key_eqb k' h); auto.
Qed.

Lemma dict_set_items (k v : value) (d : list (value * value))
    (k' v' : value) :
  In (k', v') (dict_set k v d) -> v' = v \/ In (k', v') d.
Proof.
  induction d as [| [k0 v0] rest IH]; cbn.
  - intros [[= <- <-] | []]. now left.
  - destruct (key_eqb k0 k); cbn.
    + intros [[= <- <-] | H]; auto.
    + intros [H | H]; auto. destruct (IH H); auto.
Qed.

Lemma key_eqb_plain (k h : value) :
  plain h = true -> key_eqb k h = true -> k = h.
Proof.
  destruct h; try discriminate; intros _; destruct k; cbn; try discriminate.
  - reflexivity.
  - intros E. apply String.eqb_eq in E. now subst.
Qed.

Lemma dict_mem_plain (h : value) (d : list (value * value)) :
  plain h = true -> dict_mem h d = true -> In h (map fst d).
Proof.
  intros Hp. unfold dict_mem.
  induction d as [| [k v] rest IH]; cbn; [discriminate |].
  destruct (key_eqb k h) eqn:E; [| auto].
  intros _. left. now apply key_eqb_plain.
Qed.

(** ** What every turn of a loop keeps *)

Lemma steps_invariant (P : state -> Prop)
    (step : state -> value -> result state) :
  (forall s x s', P s -> step s x = Ok s' -> P s') ->
  forall items s s', P s -> steps step s items = Ok s' -> P s'.
Proof.
  intros Hstep. induction items as [| x rest IH]; cbn; intros s s' Hs.
  - now intros [= <-].
  - destruct (step s x) as [s1 | e] eqn:E; cbn [bind]; [| discriminate].
    apply IH. eapply Hstep; eauto.
Qed.

Lemma step_device_inv (s : state) (x : value) (s' : state) :
  step_device s x = Ok s' ->
  exists d, x = VDict d /\ hashable (device_hostname d) = true /\
    s' = match device_group (device_type d) with
         | Some g => push g (device_hostname d)
                       (assign (device_hostname d) (device_vars d) s)
         | None => assign (device_hostname d) (device_vars d) s
         end.
Proof.
  destruct x as [| b | n | str | l | d]; try discriminate.
  unfold step_device.
  destruct (hashable (device_hostname d)) eqn:Hh; [| discriminate].
  intros H. exists d. split; [reflexivity | split; [exact Hh |]].
  destruct (device_group (device_type d)); now injection H as <-.
Qed.

Lemma step_client_inv (s : state) (x : value) (s' : state) :
  step_client s x = Ok s' ->
  exists d, x = VDict d /\ hashable (client_hostname d) = true /\
    s' = push (client_group (client_is_wired d)) (client_hostname d)
           (assign (client_hostname d) (client_vars d) s).
Proof.
  destruct x as [| b | n | str | l | d]; try discriminate.
  unfold step_client.
  destruct (hashable (client_hostname d)) eqn:Hh; [| discriminate].
  intros [= <-]. exists d. auto.
Qed.

(** ** The [hosts] lists and the keys of [hostvars] *)

Lemma hosts_assign (h vars : value) (s : state) (g : string) :
  hosts (assign h vars s) g = hosts s g.
Proof. reflexivity. Qed.

Lemma hosts_push (g : string) (h : value) (s : state) (g' : string) :
  In g host_groups ->
  hosts (push g h s) g' = if g' =? g then hosts s g' ++ [h] else hosts s g'.
Proof.
  intros Hg. cbn in Hg. unfold hosts, push.
  destruct Hg as [<- | [<- | [<- | [<- | [<- | []]]]]];
    cbn [switches aps gateways wired_clients wireless_clients];
    repeat match goal with
    | |- context [String.eqb g' ?b] =>
        let E := fresh "E" in
        destruct (String.eqb g' b) eqn:E;
        [apply String.eqb_eq in E; subst g' |]
    end; reflexivity.
Qed.

Lemma device_group_host (t : value) (g : string) :
  device_group t = Some g -> In g host_groups.
Proof.
  intros H. apply device_group_known in H. unfold host_groups.
  apply in_or_app. now left.
Qed.

Lemma client_group_host (w : bool) : In (client_group w) host_groups.
Proof. destruct w; cbn; auto 6. Qed.

Lemma steps_device_hosts (items : list value) (s s' : state) (g : string) :
  steps step_device s items = Ok s' ->
  hosts s' g = hosts s g ++ device_hosts g items.
Proof.
  revert s. induction items as [| x rest IH]; cbn [steps]; intros s.
  - intros [= <-]. cbn. now rewrite app_nil_r.
  - destruct (step_device s x) as [s1 | e] eqn:E; cbn [bind]; [| discriminate].
    intros H. rewrite (IH _ H).
    apply step_device_inv in E. destruct E as (d & -> & _ & ->).
    cbn [device_hosts flat_map]. fold (device_hosts g rest).
    destruct (device_group (device_type d)) as [g0 |] eqn:Eg.
    + rewrite hosts_push by (eapply device_group_host; eauto).
      rewrite hosts_assign.
      destruct (g =? g0); cbn [app]; now rewrite <- ?app_assoc.
    + now rewrite hosts_assign.
Qed.

Lemma steps_client_hosts (items : list value) (s s' : state) (g : string) :
  steps step_client s items = Ok s' ->
  hosts s' g = hosts s g ++ client_hosts g items.
Proof.
  revert s. induction items as [| x rest IH]; cbn [steps]; intros s.
  - intros [= <-]. cbn. now rewrite app_nil_r.
  - destruct (step_client s x) as [s1 | e] eqn:E; cbn [bind]; [| discriminate].
    intros H. rewrite (IH _ H).
    apply step_client_inv in E. destruct E as (d & -> & _ & ->).
    cbn [client_hosts flat_map]. fold (client_hosts g rest).
    rewrite hosts_push by apply client_group_host.
    rewrite hosts_assign.
    destruct (g =? client_group (client_is_wired d)); cbn [app];
      now rewrite <- ?app_assoc.
Qed.

(** The keys of [hostvars] only grow. *)
Lemma steps_device_keys (items : list value) (s s' : state) (h : value) :
  steps step_device s items = Ok s' ->
  dict_mem h (hostvars s) = true -> dict_mem h (hostvars s') = true.
Proof.
  intros H Hh. revert H.
  apply (steps_invariant (fun s => dict_mem h (hostvars s) = true)); auto.
  clear. intros s x s' Hs E.
  apply step_device_inv in E. destruct E as (d & -> & _ & ->).
  destruct (device_group (device_type d)); cbn; now apply dict_mem_set_other.
Qed.

Lemma steps_client_keys (items : list value) (s s' : state) (h : value) :
  steps step_client s items = Ok s' ->
  dict_mem h (hostvars s) = true -> dict_mem h (hostvars s') = true.
Proof.
  intros H Hh. revert H.
  apply (steps_invariant (fun s => dict_mem h (hostvars s) = true)); auto.
  clear. intros s x s' Hs E.
  apply step_client_inv in E. destruct E as (d & -> & _ & ->).
  cbn. now apply dict_mem_set_other.
Qed.

Lemma steps_device_key (items : list value) (s s' : state)
    (d : list (value * value)) :
  steps step_device s items = Ok s' -> In (VDict d) items ->
  dict_mem (device_hostname d) (hostvars s') = true.
Proof.
  revert s. induction items as [| x rest IH]; cbn [steps]; intros s H [].
  - subst x. destruct (step_device s (VDict d)) as [s1 | e] eqn:E;
      cbn [bind] in H; [| discriminate].
    eapply steps_device_keys; eauto.
    apply step_device_inv in E. destruct E as (d' & [= <-] & Hh & ->).
    destruct (device_group (device_type d)); cbn;
      now apply dict_mem_set_same.
  - destruct (step_device s x) as [s1 | e]; cbn [bind] in H; [| discriminate].
    eauto.
Qed.

Lemma steps_client_key (items : list value) (s s' : state)
    (d : list (value * value)) :
  steps step_client s items = Ok s' -> In (VDict d) items ->
  dict_mem (client_hostname d) (hostvars s') = true.
Proof.
  revert s. induction items as [| x rest IH]; cbn [steps]; intros s H [].
  - subst x. destruct (step_client s (VDict d)) as [s1 | e] eqn:E;
      cbn [bind] in H; [| discriminate].
    eapply steps_client_keys; eauto.
    apply step_client_inv in E. destruct E as (d' & [= <-] & Hh & ->).
    cbn. now apply dict_mem_set_same.
  - destruct (step_client s x) as [s1 | e]; cbn [bind] in H; [| discriminate].
    eauto.
Qed.

Lemma device_hosts_In (g : string) (items : list value) (h : value) :
  In h (device_hosts g items) <->
  exists d, In (VDict d) items /\ device_group (device_type d) = Some g /\
            device_hostname d = h.
Proof.
  unfold device_hosts. rewrite in_flat_map. split.
  - intros (x & Hx & Hin). destruct x as [| | | | | d]; try contradiction.
    destruct (device_group (device_type d)) as [g0 |] eqn:Eg;
      [| contradiction].
    destruct (g =? g0) eqn:E; [| contradiction].
    apply String.eqb_eq in E. subst g0.
    destruct Hin as [<- | []]. now exists d.
  - intros (d & Hd & Eg & <-). exists (VDict d). split; [exact Hd |].
    rewrite Eg, String.eqb_refl. now left.
Qed.

Lemma client_hosts_In (g : string) (items : list value) (h : value) :
  In h (client_hosts g items) <->
  exists d, In (VDict d) items /\ client_group (client_is_wired d) = g /\
            client_hostname d = h.
Proof.
  unfold client_hosts. rewrite in_flat_map. split.
  - intros (x & Hx & Hin). destruct x as [| | | | | d]; try contradiction.
    destruct (g =? client_group (client_is_wired d)) eqn:E; [| contradiction].
    apply String.eqb_eq in E.
    destruct Hin as [<- | []]. now exists d.
  - intros (d & Hd & <- & <-). exists (VDict d). split; [exact Hd |].
    rewrite String.eqb_refl. now left.
Qed.

Lemma hosts_empty (g : string) : hosts empty g = [].
Proof.
  unfold hosts.
  repeat match goal with
  | |- context [String.eqb g ?b] => destruct (String.eqb g b)
  end; reflexivity.
Qed.

(** The [hosts] lists of the document built from [ds] and [cs]. *)
Lemma built_hosts (ds cs : list value) (s s' : state) (g : string) :
  steps step_device empty ds = Ok s ->
  steps step_client s cs = Ok s' ->
  hosts s' g = device_hosts g ds ++ client_hosts g cs.
Proof.
  intros Hd Hc.
  rewrite (steps_client_hosts _ _ _ g Hc), (steps_device_hosts _ _ _ g Hd).
  now rewrite hosts_empty.
Qed.

Lemma client_hosts_device_group (g : string) (items : list value) :
  In g device_groups -> client_hosts g items = [].
Proof.
  intros Hg. induction items as [| x rest IH]; [reflexivity |].
  cbn [client_hosts flat_map]. fold (client_hosts g rest). rewrite IH.
  destruct x as [| | | | | d]; try reflexivity.
  cbn in Hg. destruct Hg as [<- | [<- | [<- | []]]];
    now destruct (client_is_wired d).
Qed.

Lemma device_hosts_client_group (g : string) (items : list value) :
  In g client_groups -> device_hosts g items = [].
Proof.
  intros Hg. induction items as [| x rest IH]; [reflexivity |].
  cbn [device_hosts flat_map]. fold (device_hosts g rest). rewrite IH.
  destruct x as [| | | | | d]; try reflexivity.
  destruct (device_group (device_type d)) as [g0 |] eqn:E; [| reflexivity].
  apply device_group_known in E. cbn in Hg, E.
  destruct Hg as [<- | [<- | []]];
    destruct E as [<- | [<- | [<- | []]]]; reflexivity.
Qed.

Lemma step_device_dict (s : state) (d : list (value * value)) :
  hashable (device_hostname d) = true ->
  step_device s (VDict d) =
  Ok match device_group (device_type d) with
     | Some g => push g (device_hostname d)
                   (assign (device_hostname d) (device_vars d) s)
     | None => assign (device_hostname d) (device_vars d) s
     end.
Proof.
  intros Hh. unfold step_device. rewrite Hh.
  now destruct (device_group (device_type d)).
Qed.

Lemma step_client_dict (s : state) (d : list (value * value)) :
  hashable (client_hostname d) = true ->
  step_client s (VDict d) =
  Ok (push (client_group (client_is_wired d)) (client_hostname d)
        (assign (client_hostname d) (client_vars d) s)).
Proof. intros Hh. unfold step_client. now rewrite Hh. Qed.

Lemma hostvars_push (g : string) (h : value) (s : state) :
  hostvars (push g h s) = hostvars s.
Proof. reflexivity. Qed.

Lemma device_group_none (t : value) :
  (forall code, In code type_codes -> t <> VStr code) ->
  device_group t = None.
Proof.
  intros H. unfold device_group.
  destruct t as [| | | s | |]; try reflexivity. cbn [eq_str].
  destruct (s =? "usw") eqn:E1;
    [apply String.eqb_eq in E1; subst; exfalso;
     apply (H "usw"); cbn; auto |].
  destruct (s =? "uap") eqn:E2;
    [apply String.eqb_eq in E2; subst; exfalso;
     apply (H "uap"); cbn; auto |].
  destruct (s =? "ugw") eqn:E3;
    [apply String.eqb_eq in E3; subst; exfalso;
     apply (H "ugw"); cbn; auto |].
  reflexivity.
Qed.

Lemma device_group_some (t : value) (g : string) :
  device_group t = Some g ->
  exists code, In code type_codes /\ t = VStr code.
Proof.
  unfold device_group. destruct t as [| | | s | |]; try discriminate.
  cbn [eq_str].
  destruct (s =? "usw") eqn:E1;
    [apply String.eqb_eq in E1; subst; exists "usw"; cbn; auto |].
  destruct (s =? "uap") eqn:E2;
    [apply String.eqb_eq in E2; subst; exists "uap"; cbn; auto |].
  destruct (s =? "ugw") eqn:E3;
    [apply String.eqb_eq in E3; subst; exists "ugw"; cbn; auto |].
  discriminate.
Qed.

(** One device record has no [name] and one client record has no
    [hostname].  Each is identified by what [.get('mac')] returns, which is
    [None] when [mac] is absent too.  The document is built: the device's
    variables are stored under the device's identifier and the client's
    under the client's (after the device's, so a shared identifier keeps
    the client's); the device's identifier is the [hosts] list of the
    sub-group its type selects, and the client's identifier is the [hosts]
    list of the sub-group its wired flag selects. *)
Lemma lone_records_by_mac (c : controller) (device client : list (value * value)) :
  fst (get_devices c) = VList [VDict device] ->
  fst (get_clients c) = VList [VDict client] ->
  dict_get (VStr "name") device = None ->
  dict_get (VStr "hostname") client = None ->
  hashable (field device "mac" VNone) = true ->
  hashable (field client "mac" VNone) = true ->
  (dict_get (VStr "mac") device = None -> field device "mac" VNone = VNone) /\
  (dict_get (VStr "mac") client = None -> field client "mac" VNone = VNone) /\
  exists doc,
    fst (build_inventory c) = Ok doc /\
    doc_hostvars doc =
      Ok (VDict (dict_set (field client "mac" VNone) (client_vars client)
                   [(field device "mac" VNone, device_vars device)])) /\
    (forall g, device_group (device_type device) = Some g ->
       doc_hosts doc g = Ok (VList [field device "mac" VNone])) /\
    doc_hosts doc (client_group (client_is_wired client))
      = Ok (VList [field client "mac" VNone]).
Proof.
  intros Hd Hc Hname Hhost Hdm Hcm.
  split; [intros E; unfold field; now rewrite E |].
  split; [intros E; unfold field; now rewrite E |].
  assert (Edh : device_hostname device = field device "mac" VNone).
  { unfold device_hostname, or_else, field at 1 2. now rewrite Hname. }
  assert (Ech : client_hostname client = field client "mac" VNone).
  { unfold client_hostname, or_else, field at 1 2. now rewrite Hhost. }
  rewrite <- Edh, <- Ech in *.
  assert (Hs : exists s s',
    steps step_device empty [VDict device] = Ok s /\
    steps step_client s [VDict client] = Ok s' /\
    hostvars s' = dict_set (client_hostname client) (client_vars client)
                    [(device_hostname device, device_vars device)]).
  { cbn [steps]. rewrite !step_device_dict by assumption. cbn [bind].
    eexists. eexists. split; [reflexivity |].
    rewrite !step_client_dict by assumption. cbn [bind].
    split; [reflexivity |].
    rewrite hostvars_push.
    now destruct (device_group (device_type device)). }
  destruct Hs as (s & s' & Hs & Hs' & Hv).
  exists (document s'). split.
  { rewrite build_inventory_assemble, Hd, Hc. unfold assemble.
    cbn [iter bind]. rewrite Hs. cbn [bind]. now rewrite Hs'. }
  split; [now rewrite doc_hostvars_document, Hv |]. split.
  - intros g Eg.
    rewrite doc_hosts_document by (eapply device_group_host; eauto).
    rewrite (built_hosts _ _ _ _ g Hs Hs').
    rewrite client_hosts_device_group
      by (eapply device_group_known; eauto).
    cbn. now rewrite Eg, String.eqb_refl.
  - rewrite doc_hosts_document by apply client_group_host.
    rewrite (built_hosts _ _ _ _ _ Hs Hs').
    rewrite device_hosts_client_group
      by (destruct (client_is_wired client); cbn; auto).
    cbn. now rewrite String.eqb_refl.
Qed.

Lemma device_vars_entry (d : list (value * value)) :
  device_entry (device_vars d).
Proof. eexists. repeat split. Qed.

Lemma client_vars_entry (d : list (value * value)) :
  client_entry (client_vars d).
Proof. eexists. repeat split. Qed.

Lemma entries_exclusive (e : value) : device_entry e -> client_entry e -> False.
Proof.
  intros (v1 & -> & _ & H1 & _) (v2 & [= <-] & _ & _ & H2). congruence.
Qed.

Lemma step_device_whole (s : state) (x : value) (s' : state) :
  entries_whole s -> step_device s x = Ok s' -> entries_whole s'.
Proof.
  intros Hs E k e. apply step_device_inv in E. destruct E as (d & -> & _ & ->).
  destruct (device_group (device_type d)); cbn; intros Hin;
    apply dict_set_items in Hin;
    (destruct Hin as [-> | Hin];
     [left; apply device_vars_entry | eauto]).
Qed.

Lemma step_client_whole (s : state) (x : value) (s' : state) :
  entries_whole s -> step_client s x = Ok s' -> entries_whole s'.
Proof.
  intros Hs E k e. apply step_client_inv in E. destruct E as (d & -> & _ & ->).
  cbn. intros Hin. apply dict_set_items in Hin.
  destruct Hin as [-> | Hin]; [right; apply client_vars_entry | eauto].
Qed.

(** ** Fetches and the run *)

Lemma failed_fetch_failed (o : http_outcome) :
  failed o = true -> fetch_failed o = true.
Proof.
  destruct o as [e | status json]; [reflexivity |]. cbn. now intros ->.
Qed.

Lemma get_devices_failed (c : controller) :
  fetch_failed (stat_device c) = true -> fst (get_devices c) = VList [].
Proof.
  unfold get_devices, fetch_failed.
  destruct (stat_device c) as [e | status json]; [reflexivity |].
  destruct (status =? 200)%Z; [| reflexivity]. cbn [negb orb].
  now destruct (body <- json ;; get body "data" (VList [])).
Qed.

Lemma get_clients_failed (c : controller) :
  fetch_failed (stat_sta c) = true -> fst (get_clients c) = VList [].
Proof.
  unfold get_clients, fetch_failed.
  destruct (stat_sta c) as [e | status json]; [reflexivity |].
  destruct (status =? 200)%Z; [| reflexivity]. cbn [negb orb].
  now destruct (body <- json ;; get body "data" (VList [])).
Qed.

Lemma get_devices_quiet (c : controller) :
  fst (get_devices (quiet c)) = fst (get_devices c).
Proof.
  destruct (fetch_failed (stat_device c)) eqn:E.
  - rewrite (get_devices_failed c E). unfold get_devices, quiet. cbn.
    now rewrite E.
  - unfold get_devices, quiet. cbn. now rewrite E.
Qed.

Lemma get_clients_quiet (c : controller) :
  fst (get_clients (quiet c)) = fst (get_clients c).
Proof.
  destruct (fetch_failed (stat_sta c)) eqn:E.
  - rewrite (get_clients_failed c E). unfold get_clients, quiet. cbn.
    now rewrite E.
  - unfold get_clients, quiet. cbn. now rewrite E.
Qed.

Lemma build_inventory_quiet (c : controller) :
  fst (build_inventory (quiet c)) = fst (build_inventory c).
Proof.
  now rewrite !build_inventory_assemble, get_devices_quiet, get_clients_quiet.
Qed.

Lemma run_stdout (c : controller) :
  stdout (run c) =
  if fst (authenticate c) then
    match fst (build_inventory c) with
    | Ok inventory => [inventory]
    | Raise _ => []
    end
  else [].
Proof.
  unfold run. destruct (authenticate c) as [[|] err]; cbn [negb fst];
    [| reflexivity].
  destruct (build_inventory c) as [[inventory | e] err']; reflexivity.
Qed.

Lemma run_exit_status (c : controller) :
  exit_status (run c) =
  if fst (authenticate c) then
    match fst (build_inventory c) with
    | Ok _ => 0%Z
    | Raise _ => 1%Z
    end
  else 1%Z.
Proof.
  unfold run. destruct (authenticate c) as [[|] err]; cbn [negb fst];
    [| reflexivity].
  destruct (build_inventory c) as [[inventory | e] err']; reflexivity.
Qed.

(** ** The document is built *)

Lemma steps_device_returns (items : list value) (s : state) :
  forallb device_accepted items = true ->
  exists s', steps step_device s items = Ok s'.
Proof.
  revert s. induction items as [| x rest IH]; cbn [forallb steps]; intros s H.
  - now exists s.
  - apply andb_prop in H. destruct H as [Hx Hrest].
    destruct x as [| | | | | d]; try discriminate.
    rewrite step_device_dict by exact Hx. cbn [bind]. now apply IH.
Qed.

Lemma steps_client_returns (items : list value) (s : state) :
  forallb client_accepted items = true ->
  exists s', steps step_client s items = Ok s'.
Proof.
  revert s. induction items as [| x rest IH]; cbn [forallb steps]; intros s H.
  - now exists s.
  - apply andb_prop in H. destruct H as [Hx Hrest].
    destruct x as [| | | | | d]; try discriminate.
    rewrite step_client_dict by exact Hx. cbn [bind]. now apply IH.
Qed.

(** [build_inventory] returns a document whenever the fetched records are
    dictionaries with hashable identifiers. *)
Lemma build_inventory_total (c : controller) (devices clients : list value) :
  fst (get_devices c) = VList devices ->
  fst (get_clients c) = VList clients ->
  forallb device_accepted devices = true ->
  forallb client_accepted clients = true ->
  exists s, fst (build_inventory c) = Ok (document s).
Proof.
  intros Hd Hc Hds Hcs.
  rewrite build_inventory_assemble, Hd, Hc. unfold assemble. cbn [iter bind].
  destruct (steps_device_returns devices empty Hds) as [s Hs].
  rewrite Hs. cbn [bind].
  destruct (steps_client_returns clients s Hcs) as [s' Hs'].
  rewrite Hs'. now exists s'.
Qed.

(** ** Further lemmas on dictionaries and on the two loops *)

Lemma key_eqb_sym (a b : value) : key_eqb a b = key_eqb b a.
Proof.
  destruct a, b; cbn; try reflexivity.
  - now destruct b, b0.
  - apply Z.eqb_sym.
  - apply Z.eqb_sym.
  - apply Z.eqb_sym.
  - apply String.eqb_sym.
Qed.

Lemma key_eqb_hashable (a b : value) :
  key_eqb a b = true -> hashable a = true /\ hashable b = true.
Proof. destruct a, b; cbn; try discriminate; auto. Qed.

(** Equal keys compare alike with every third key. *)
Lemma key_eqb_congr (a b h : value) :
  key_eqb a b = true -> key_eqb a h = key_eqb b h.
Proof.
  destruct a as [| x | n | s | |], b as [| y | m | t | |]; cbn;
    try discriminate; intros E.
  - reflexivity.
  - apply Bool.eqb_prop in E. now subst.
  - apply Z.eqb_eq in E. subst.
    destruct h as [| z | k | | |]; cbn; try reflexivity. now destruct x, z.
  - apply Z.eqb_eq in E. subst.
    destruct h as [| z | k | | |]; cbn; try reflexivity. now destruct y, z.
  - apply Z.eqb_eq in E. now subst.
  - apply String.eqb_eq in E. now subst.
Qed.

Lemma dict_get_set (k v h : value) (d : list (value * value)) :
  hashable k = true ->
  dict_get h (dict_set k v d) = if key_eqb k h then Some v else dict_get h d.
Proof.
  intros Hk. induction d as [| [k' v'] rest IH]; cbn.
  - reflexivity.
  - destruct (key_eqb k' k) eqn:E; cbn.
    + rewrite (key_eqb_congr k' k h E). now destruct (key_eqb k h).
    + rewrite IH. destruct (key_eqb k' h) eqn:E'; [| reflexivity].
      destruct (key_eqb k h) eqn:E''; [| reflexivity].
      rewrite key_eqb_sym in E''.
      rewrite (key_eqb_congr k' h k E') in E. rewrite E in E''. discriminate.
Qed.

Lemma dict_set_keys (k v : value) (d : list (value * value)) :
  map fst (dict_set k v d) =
  if dict_mem k d then map fst d else map fst d ++ [k].
Proof.
  unfold dict_mem. induction d as [| [k' v'] rest IH]; cbn; [reflexivity |].
  destruct (key_eqb k' k); cbn; [reflexivity |].
  rewrite IH. now destruct (dict_get k rest).
Qed.

Lemma dict_get_none (h : value) (d : list (value * value)) :
  dict_get h d = None <-> Forall (fun k => key_eqb k h = false) (map fst d).
Proof.
  induction d as [| [k v] rest IH]; cbn.
  - split; auto.
  - destruct (key_eqb k h) eqn:E; split.
    + discriminate.
    + intros H. inversion H. congruence.
    + intros H. constructor; [exact E | now apply IH].
    + intros H. inversion H. now apply IH.
Qed.

Lemma steps_device_hostvars (items : list value) (s s' : state) :
  steps step_device s items = Ok s' ->
  hostvars s' = assign_all (device_writes items) (hostvars s) /\
  Forall (fun kv => hashable (fst kv) = true) (device_writes items).
Proof.
  revert s. induction items as [| x rest IH]; cbn [steps]; intros s.
  - intros [= <-]. split; [reflexivity | constructor].
  - destruct (step_device s x) as [s1 | e] eqn:E; cbn [bind]; [| discriminate].
    intros H. destruct (IH _ H) as [Hv Hh].
    apply step_device_inv in E. destruct E as (d & -> & Hd & ->).
    cbn [device_writes flat_map app]. fold (device_writes rest). split.
    + rewrite Hv. unfold assign_all. cbn [fold_left fst snd].
      now destruct (device_group (device_type d)).
    + now constructor.
Qed.

Lemma steps_client_hostvars (items : list value) (s s' : state) :
  steps step_client s items = Ok s' ->
  hostvars s' = assign_all (client_writes items) (hostvars s) /\
  Forall (fun kv => hashable (fst kv) = true) (client_writes items).
Proof.
  revert s. induction items as [| x rest IH]; cbn [steps]; intros s.
  - intros [= <-]. split; [reflexivity | constructor].
  - destruct (step_client s x) as [s1 | e] eqn:E; cbn [bind]; [| discriminate].
    intros H. destruct (IH _ H) as [Hv Hh].
    apply step_client_inv in E. destruct E as (d & -> & Hd & ->).
    cbn [client_writes flat_map app]. fold (client_writes rest). split.
    + rewrite Hv. reflexivity.
    + now constructor.
Qed.

Lemma assign_all_app (ws1 ws2 d : list (value * value)) :
  assign_all (ws1 ++ ws2) d = assign_all ws2 (assign_all ws1 d).
Proof. unfold assign_all. apply fold_left_app. Qed.

Lemma dict_get_assign_all (h : value) (ws d : list (value * value)) :
  Forall (fun kv => hashable (fst kv) = true) ws ->
  dict_get h (assign_all ws d) =
  fold_left (fun acc kv => if key_eqb (fst kv) h then Some (snd kv) else acc)
            ws (dict_get h d).
Proof.
  intros Hh. revert d. induction Hh as [| [k v] ws Hk _ IH]; intros d.
  - reflexivity.
  - unfold assign_all in *. cbn [fold_left fst snd].
    rewrite IH. cbn [fst] in Hk. now rewrite dict_get_set.
Qed.

(** The hostvars of the document built from [ds] and [cs]. *)
Lemma built_hostvars (ds cs : list value) (s s' : state) :
  steps step_device empty ds = Ok s ->
  steps step_client s cs = Ok s' ->
  hostvars s' = assign_all (device_writes ds ++ client_writes cs) [] /\
  Forall (fun kv => hashable (fst kv) = true)
         (device_writes ds ++ client_writes cs).
Proof.
  intros Hd Hc.
  destruct (steps_device_hostvars _ _ _ Hd) as [Hv1 Hh1].
  destruct (steps_client_hostvars _ _ _ Hc) as [Hv2 Hh2].
  split; [now rewrite assign_all_app, Hv2, Hv1 |].
  apply Forall_app. now split.
Qed.

Lemma steps_device_accepted (items : list value) (s s' : state) :
  steps step_device s items = Ok s' -> forallb device_accepted items = true.
Proof.
  revert s. induction items as [| x rest IH]; cbn [steps forallb]; intros s;
    [reflexivity |].
  destruct (step_device s x) as [s1 | e] eqn:E; cbn [bind]; [| discriminate].
  intros H. rewrite (IH _ H).
  apply step_device_inv in E. destruct E as (d & -> & Hd & _).
  cbn. now rewrite Hd.
Qed.

Lemma steps_client_accepted (items : list value) (s s' : state) :
  steps step_client s items = Ok s' -> forallb client_accepted items = true.
Proof.
  revert s. induction items as [| x rest IH]; cbn [steps forallb]; intros s;
    [reflexivity |].
  destruct (step_client s x) as [s1 | e] eqn:E; cbn [bind]; [| discriminate].
  intros H. rewrite (IH _ H).
  apply step_client_inv in E. destruct E as (d & -> & Hd & _).
  cbn. now rewrite Hd.
Qed.

Lemma step_device_rejected (s : state) (x : value) :
  device_accepted x = false -> step_device s x = Raise (rejection x).
Proof.
  destruct x as [| | | | | d]; try reflexivity.
  cbn [device_accepted]. unfold step_device. now intros ->.
Qed.

Lemma step_client_rejected (s : state) (x : value) :
  client_accepted x = false -> step_client s x = Raise (rejection x).
Proof.
  destruct x as [| | | | | d]; try reflexivity.
  cbn [client_accepted]. unfold step_client. now intros ->.
Qed.

Lemma steps_device_rejected (items : list value) (s : state) (x : value) :
  find (fun y => negb (device_accepted y)) items = Some x ->
  steps step_device s items = Raise (rejection x).
Proof.
  revert s. induction items as [| y rest IH]; cbn [find steps]; intros s;
    [discriminate |].
  destruct (device_accepted y) eqn:E; cbn [negb].
  - intros H. destruct y as [| | | | | d]; try discriminate.
    rewrite step_device_dict by exact E. cbn [bind]. now apply IH.
  - intros [= <-]. now rewrite step_device_rejected.
Qed.

Lemma steps_client_rejected (items : list value) (s : state) (x : value) :
  find (fun y => negb (client_accepted y)) items = Some x ->
  steps step_client s items = Raise (rejection x).
Proof.
  revert s. induction items as [| y rest IH]; cbn [find steps]; intros s;
    [discriminate |].
  destruct (client_accepted y) eqn:E; cbn [negb].
  - intros H. destruct y as [| | | | | d]; try discriminate.
    rewrite step_client_dict by exact E. cbn [bind]. now apply IH.
  - intros [= <-]. now rewrite step_client_rejected.
Qed.

Lemma find_none_forallb (accepted : value -> bool) (items : list value) :
  find (fun y => negb (accepted y)) items = None <->
  forallb accepted items = true.
Proof.
  induction items as [| y rest IH]; cbn; [tauto |].
  destruct (accepted y); cbn; [exact IH | split; discriminate].
Qed.

Lemma last_write_from (h : value) (ws : list (value * value))
    (acc : option value) :
  fold_left (fun acc kv => if key_eqb (fst kv) h then Some (snd kv) else acc)
            ws acc = None <->
  acc = None /\ Forall (fun kv => key_eqb (fst kv) h = false) ws.
Proof.
  revert acc. induction ws as [| [k v] rest IH]; intros acc; cbn [fold_left].
  - split; [intros ->; auto | tauto].
  - rewrite IH. cbn [fst snd]. destruct (key_eqb k h) eqn:E; split.
    + intros [[=] _].
    + intros [_ H]. inversion H. cbn in *. congruence.
    + intros [-> H]. auto.
    + intros [-> H]. inversion H. auto.
Qed.

Lemma device_writes_In (items : list value) (k v : value) :
  In (k, v) (device_writes items) <->
  exists d, In (VDict d) items /\ k = device_hostname d /\ v = device_vars d.
Proof.
  unfold device_writes. rewrite in_flat_map. split.
  - intros (x & Hx & Hin). destruct x as [| | | | | d]; try contradiction.
    destruct Hin as [[= <- <-] | []]. now exists d.
  - intros (d & Hd & -> & ->). exists (VDict d). split; [exact Hd | now left].
Qed.

Lemma client_writes_In (items : list value) (k v : value) :
  In (k, v) (client_writes items) <->
  exists d, In (VDict d) items /\ k = client_hostname d /\ v = client_vars d.
Proof.
  unfold client_writes. rewrite in_flat_map. split.
  - intros (x & Hx & Hin). destruct x as [| | | | | d]; try contradiction.
    destruct Hin as [[= <- <-] | []]. now exists d.
  - intros (d & Hd & -> & ->). exists (VDict d). split; [exact Hd | now left].
Qed.

(** What [build_inventory] returns with lists of records. *)
Lemma build_inventory_lists (c : controller) (devices clients : list value)
    (doc : value) :
  fst (get_devices c) = VList devices ->
  fst (get_clients c) = VList clients ->
  fst (build_inventory c) = Ok doc ->
  exists s s',
    steps step_device empty devices = Ok s /\
    steps step_client s clients = Ok s' /\
    doc = document s'.
Proof.
  intros Hdev Hcli H. apply build_inventory_returns in H.
  destruct H as (ds & s & cs & s' & Hds & Hd & Hcs & Hc & ->).
  rewrite Hdev in Hds. rewrite Hcli in Hcs. cbn in Hds, Hcs.
  injection Hds as <-. injection Hcs as <-. now exists s, s'.
Qed.

(** ** The claims *)

(** C1.  In the document [build_inventory] returns, every host identifier in
    the [hosts] list of [switches], [aps], [gateways], [wired_clients] or
    [wireless_clients] is a key of [_meta.hostvars]: [h in hostvars] holds,
    and when the identifier is [None] or a [str] it is literally among the
    stored keys.  This holds whatever the two fetches returned. *)
Theorem hosts_have_hostvars (c : controller) (doc : value) :
  fst (build_inventory c) = Ok doc ->
  exists hv,
    doc_hostvars doc = Ok (VDict hv) /\
    forall g, In g host_groups ->
      exists l,
        doc_hosts doc g = Ok (VList l) /\
        forall h, In h l ->
          dict_mem h hv = true /\ (plain h = true -> In h (map fst hv)).
Proof.
  intros H. apply build_inventory_returns in H.
  destruct H as (ds & s & cs & s' & _ & Hd & _ & Hc & ->).
  exists (hostvars s'). split; [apply doc_hostvars_document |].
  intros g Hg. exists (hosts s' g). split; [now apply doc_hosts_document |].
  intros h Hh.
  assert (Hmem : dict_mem h (hostvars s') = true).
  { rewrite (built_hosts ds cs s s' g Hd Hc) in Hh.
    apply in_app_or in Hh. destruct Hh as [Hh | Hh].
    - apply device_hosts_In in Hh. destruct Hh as (d & Hin & _ & <-).
      eapply steps_client_keys; eauto. eapply steps_device_key; eauto.
    - apply client_hosts_In in Hh. destruct Hh as (d & Hin & _ & <-).
      eapply steps_client_key; eauto. }
  split; [exact Hmem |].
  intros Hp. now apply dict_mem_plain.
Qed.

Lemma hosts_have_hostvars_witness :
  exists hv,
    doc_hostvars small_site_document = Ok (VDict hv) /\
    forall g, In g host_groups ->
      exists l,
        doc_hosts small_site_document g = Ok (VList l) /\
        forall h, In h l ->
          dict_mem h hv = true /\ (plain h = true -> In h (map fst hv)).
Proof. apply (hosts_have_hostvars small_site). reflexivity. Defined.

(** C2, as stated, fails: a device of type [uvc] and a client both derive
    [host1]; the entry of [host1] is the client's, [host1] is in
    [wired_clients], and no device sub-group lists it. *)
Lemma collision_unrecognised_type :
  fst (get_devices collision_site) = VList [VDict camera] /\
  fst (get_clients collision_site) = VList [VDict desktop] /\
  device_hostname camera = VStr "host1" /\
  client_hostname desktop = VStr "host1" /\
  fst (build_inventory collision_site) = Ok collision_document /\
  ~ (exists g l, In g device_groups /\
       doc_hosts collision_document g = Ok (VList l) /\
       In (VStr "host1") l).
Proof.
  repeat (split; [reflexivity |]).
  intros (g & l & Hg & Hl & Hin). cbn in Hg.
  destruct Hg as [<- | [<- | [<- | []]]];
    cbn in Hl; injection Hl as <-; exact Hin.
Qed.

(** C2, amended.  One device record and one client record derive the same
    hashable identifier [h].  The document is built; its [hostvars] holds
    one entry, stored under [h], which is the client's variable mapping;
    [h] is in the [hosts] list of one client sub-group, the one the wired
    flag selects; and it is in the [hosts] list of a device sub-group
    exactly when the device's type code selects that sub-group, so in one
    of them for [usw], [uap] and [ugw] and in none for any other type. *)
Theorem collision_client_wins (c : controller)
    (device client : list (value * value)) (h : value) :
  fst (get_devices c) = VList [VDict device] ->
  fst (get_clients c) = VList [VDict client] ->
  device_hostname device = h ->
  client_hostname client = h ->
  hashable h = true ->
  exists doc,
    fst (build_inventory c) = Ok doc /\
    doc_hostvars doc = Ok (VDict [(h, client_vars client)]) /\
    (forall g, In g device_groups ->
       exists l, doc_hosts doc g = Ok (VList l) /\
         (In h l <-> device_group (device_type device) = Some g)) /\
    (forall g, In g client_groups ->
       exists l, doc_hosts doc g = Ok (VList l) /\
         (In h l <-> client_group (client_is_wired client) = g)).
Proof.
  intros Hd Hc Hdh Hch Hh.
  assert (Hs : exists s s',
    steps step_device empty [VDict device] = Ok s /\
    steps step_client s [VDict client] = Ok s' /\
    hostvars s' = [(h, client_vars client)]).
  { cbn [steps]. rewrite !step_device_dict by congruence. cbn [bind].
    eexists. eexists. split; [reflexivity |].
    rewrite !step_client_dict by congruence. cbn [bind].
    split; [reflexivity |].
    rewrite hostvars_push, Hdh, Hch.
    destruct (device_group (device_type device)); cbn;
      now rewrite key_eqb_refl. }
  destruct Hs as (s & s' & Hs & Hs' & Hv).
  exists (document s'). split.
  { rewrite build_inventory_assemble, Hd, Hc. unfold assemble.
    cbn [iter bind]. rewrite Hs. cbn [bind]. now rewrite Hs'. }
  split; [now rewrite doc_hostvars_document, Hv |].
  split; intros g Hg; exists (hosts s' g).
  - split; [apply doc_hosts_document, in_or_app; now left |].
    rewrite (built_hosts _ _ _ _ g Hs Hs'), client_hosts_device_group by auto.
    rewrite app_nil_r, device_hosts_In. split.
    + intros (d & [[= <-] | []] & E & _). exact E.
    + intros E. exists device. cbn. auto.
  - split; [apply doc_hosts_document, in_or_app; now right |].
    rewrite (built_hosts _ _ _ _ g Hs Hs'), device_hosts_client_group by auto.
    cbn [app]. rewrite client_hosts_In. split.
    + intros (d & [[= <-] | []] & E & _). exact E.
    + intros E. exists client. cbn. auto.
Qed.

Lemma collision_client_wins_witness :
  exists doc,
    fst (build_inventory collision_site) = Ok doc /\
    doc_hostvars doc = Ok (VDict [(VStr "host1", client_vars desktop)]) /\
    (forall g, In g device_groups ->
       exists l, doc_hosts doc g = Ok (VList l) /\
         (In (VStr "host1") l <->
          device_group (device_type camera) = Some g)) /\
    (forall g, In g client_groups ->
       exists l, doc_hosts doc g = Ok (VList l) /\
         (In (VStr "host1") l <->
          client_group (client_is_wired desktop) = g)).
Proof.
  apply (collision_client_wins collision_site camera desktop (VStr "host1"));
    reflexivity.
Defined.

(** C3, as stated, fails: two devices are named [core], the first of type
    [usw] and the second of type [uxg].  The second has none of the three
    type codes, and its identifier is in the [hosts] list of [switches]. *)
Lemma unrecognised_type_shared_name :
  fst (get_devices shared_name_site)
    = VList [VDict core_switch; VDict core_other] /\
  (forall code, In code type_codes -> device_type core_other <> VStr code) /\
  device_hostname core_other = VStr "core" /\
  fst (build_inventory shared_name_site) = Ok shared_name_document /\
  exists l, doc_hosts shared_name_document "switches" = Ok (VList l) /\
            In (VStr "core") l.
Proof.
  split; [reflexivity |]. split.
  { intros code Hc. cbn in Hc.
    destruct Hc as [<- | [<- | [<- | []]]]; discriminate. }
  split; [reflexivity |]. split; [reflexivity |].
  exists [VStr "core"]. split; [reflexivity | now left].
Qed.

(** C3, amended.  For every device record among those fetched whose type is
    none of [usw], [uap], [ugw], the document [build_inventory] returns has
    the record's identifier as a key of [_meta.hostvars], and the identifier
    is in the [hosts] list of [switches], [aps] or [gateways] only when
    another fetched device, one whose type code selects that sub-group,
    derives the same identifier. *)
Theorem unrecognised_type_not_grouped (c : controller)
    (devices : list value) (device : list (value * value)) (doc : value) :
  fst (get_devices c) = VList devices ->
  In (VDict device) devices ->
  (forall code, In code type_codes -> device_type device <> VStr code) ->
  fst (build_inventory c) = Ok doc ->
  exists hv,
    doc_hostvars doc = Ok (VDict hv) /\
    dict_mem (device_hostname device) hv = true /\
    forall g, In g device_groups ->
      exists l,
        doc_hosts doc g = Ok (VList l) /\
        (In (device_hostname device) l <->
         exists other,
           In (VDict other) devices /\
           other <> device /\
           device_group (device_type other) = Some g /\
           device_hostname other = device_hostname device).
Proof.
  intros Hdev Hin Htype H. apply build_inventory_returns in H.
  destruct H as (ds & s & cs & s' & Hds & Hd & _ & Hc & ->).
  rewrite Hdev in Hds. cbn in Hds. injection Hds as <-.
  apply device_group_none in Htype.
  exists (hostvars s'). split; [apply doc_hostvars_document |]. split.
  { eapply steps_client_keys; eauto. eapply steps_device_key; eauto. }
  intros g Hg. exists (hosts s' g).
  split; [apply doc_hosts_document, in_or_app; now left |].
  rewrite (built_hosts _ _ _ _ g Hd Hc), client_hosts_device_group by auto.
  rewrite app_nil_r, device_hosts_In. split.
  - intros (d & Hd' & Eg & Eh). exists d. repeat split; auto.
    intros ->. congruence.
  - intros (d & Hd' & _ & Eg & Eh). now exists d.
Qed.

Lemma unrecognised_type_not_grouped_witness :
  exists hv,
    doc_hostvars shared_name_document = Ok (VDict hv) /\
    dict_mem (device_hostname core_other) hv = true /\
    forall g, In g device_groups ->
      exists l,
        doc_hosts shared_name_document g = Ok (VList l) /\
        (In (device_hostname core_other) l <->
         exists other,
           In (VDict other) [VDict core_switch; VDict core_other] /\
           other <> core_other /\
           device_group (device_type other) = Some g /\
           device_hostname other = device_hostname core_other).
Proof.
  apply (unrecognised_type_not_grouped shared_name_site
           [VDict core_switch; VDict core_other] core_other).
  - reflexivity.
  - cbn. auto.
  - intros code Hc. cbn in Hc.
    destruct Hc as [<- | [<- | [<- | []]]]; discriminate.
  - reflexivity.
Defined.

(** C4.  A fetched device record for which [.get('name')] is [None] (no
    [name], or a [null] one) is identified by what [.get('mac')] returns,
    and a fetched client record for which [.get('hostname')] is [None]
    likewise.  In the document built, that value is a key of
    [_meta.hostvars] (the stored key itself when it is [None] or a [str]),
    it is in the [hosts] list of the sub-group the device's type selects,
    if any, and for a client in the [hosts] list of the sub-group the wired
    flag selects.  When [.get('mac')] is [None] too, the identifier is
    [None]: [None] is a stored key and is in those lists. *)
Theorem mac_fallback (c : controller) (devices clients : list value)
    (doc : value) :
  fst (get_devices c) = VList devices ->
  fst (get_clients c) = VList clients ->
  fst (build_inventory c) = Ok doc ->
  exists hv,
    doc_hostvars doc = Ok (VDict hv) /\
    (forall device,
       In (VDict device) devices ->
       field device "name" VNone = VNone ->
       dict_mem (field device "mac" VNone) hv = true /\
       (plain (field device "mac" VNone) = true ->
        In (field device "mac" VNone) (map fst hv)) /\
       (forall g, device_group (device_type device) = Some g ->
          exists l, doc_hosts doc g = Ok (VList l) /\
                    In (field device "mac" VNone) l) /\
       (field device "mac" VNone = VNone ->
        In VNone (map fst hv) /\
        forall g, device_group (device_type device) = Some g ->
          exists l, doc_hosts doc g = Ok (VList l) /\ In VNone l)) /\
    (forall client,
       In (VDict client) clients ->
       field client "hostname" VNone = VNone ->
       dict_mem (field client "mac" VNone) hv = true /\
       (plain (field client "mac" VNone) = true ->
        In (field client "mac" VNone) (map fst hv)) /\
       (exists l,
          doc_hosts doc
            (if truthy (field client "is_wired" (VBool false))
             then "wired_clients" else "wireless_clients")
            = Ok (VList l) /\
          In (field client "mac" VNone) l) /\
       (field client "mac" VNone = VNone ->
        In VNone (map fst hv) /\
        exists l,
          doc_hosts doc
            (if truthy (field client "is_wired" (VBool false))
             then "wired_clients" else "wireless_clients")
            = Ok (VList l) /\
          In VNone l)).
Proof.
  intros Hdev Hcli H. apply build_inventory_returns in H.
  destruct H as (ds & s & cs & s' & Hds & Hd & Hcs & Hc & ->).
  rewrite Hdev in Hds. rewrite Hcli in Hcs. cbn in Hds, Hcs.
  injection Hds as <-. injection Hcs as <-.
  exists (hostvars s'). split; [apply doc_hostvars_document |]. split.
  - intros d Hin Hname.
    assert (E : device_hostname d = field d "mac" VNone).
    { unfold device_hostname, or_else. now rewrite Hname. }
    assert (Hmem : dict_mem (field d "mac" VNone) (hostvars s') = true).
    { rewrite <- E. eapply steps_client_keys; eauto.
      eapply steps_device_key; eauto. }
    assert (Hlist : forall g, device_group (device_type d) = Some g ->
              exists l, doc_hosts (document s') g = Ok (VList l) /\
                        In (field d "mac" VNone) l).
    { intros g Eg. exists (hosts s' g).
      split; [apply doc_hosts_document; eapply device_group_host; eauto |].
      rewrite (built_hosts _ _ _ _ g Hd Hc). apply in_or_app. left.
      apply device_hosts_In. exists d. auto. }
    split; [exact Hmem |].
    split; [intros Hp; now apply dict_mem_plain |].
    split; [exact Hlist |].
    intros Hmac. rewrite Hmac in Hmem, Hlist.
    split; [now apply dict_mem_plain | exact Hlist].
  - intros d Hin Hname.
    assert (E : client_hostname d = field d "mac" VNone).
    { unfold client_hostname, or_else. now rewrite Hname. }
    assert (Hmem : dict_mem (field d "mac" VNone) (hostvars s') = true).
    { rewrite <- E. eapply steps_client_key; eauto. }
    assert (Hlist : exists l,
              doc_hosts (document s')
                (if truthy (field d "is_wired" (VBool false))
                 then "wired_clients" else "wireless_clients")
                = Ok (VList l) /\
              In (field d "mac" VNone) l).
    { exists (hosts s' (client_group (client_is_wired d))).
      split; [apply doc_hosts_document, client_group_host |].
      rewrite (built_hosts _ _ _ _ _ Hd Hc). apply in_or_app. right.
      apply client_hosts_In. exists d. auto. }
    split; [exact Hmem |].
    split; [intros Hp; now apply dict_mem_plain |].
    split; [exact Hlist |].
    intros Hmac. rewrite Hmac in Hmem, Hlist.
    split; [now apply dict_mem_plain | exact Hlist].
Qed.

Lemma mac_fallback_witness :
  exists hv,
    doc_hostvars fallback_document = Ok (VDict hv) /\
    (forall device,
       In (VDict device) [VDict bare_switch; VDict nameless_ap] ->
       field device "name" VNone = VNone ->
       dict_mem (field device "mac" VNone) hv = true /\
       (plain (field device "mac" VNone) = true ->
        In (field device "mac" VNone) (map fst hv)) /\
       (forall g, device_group (device_type device) = Some g ->
          exists l, doc_hosts fallback_document g = Ok (VList l) /\
                    In (field device "mac" VNone) l) /\
       (field device "mac" VNone = VNone ->
        In VNone (map fst hv) /\
        forall g, device_group (device_type device) = Some g ->
          exists l, doc_hosts fallback_document g = Ok (VList l) /\
                    In VNone l)) /\
    (forall client,
       In (VDict client) [VDict bare_client; VDict laptop] ->
       field client "hostname" VNone = VNone ->
       dict_mem (field client "mac" VNone) hv = true /\
       (plain (field client "mac" VNone) = true ->
        In (field client "mac" VNone) (map fst hv)) /\
       (exists l,
          doc_hosts fallback_document
            (if truthy (field client "is_wired" (VBool false))
             then "wired_clients" else "wireless_clients")
            = Ok (VList l) /\
          In (field client "mac" VNone) l) /\
       (field client "mac" VNone = VNone ->
        In VNone (map fst hv) /\
        exists l,
          doc_hosts fallback_document
            (if truthy (field client "is_wired" (VBool false))
             then "wired_clients" else "wireless_clients")
            = Ok (VList l) /\
          In VNone l)).
Proof. apply (mac_fallback fallback_site); reflexivity. Defined.

(** C5.  One of the two fetches fails (the request raises, the status is
    not 200, or reading [data] from the body raises); each fetch hands
    over nothing when it failed and the records under [data] when it
    succeeded, and those records are dictionaries with hashable
    identifiers.  Then the failed fetch yields the empty list and raises
    nothing, [build_inventory] returns a document, and once authenticated
    [run] prints that document and ends with status 0.  The document is
    the one of the records that were fetched: each [hosts] list holds
    their identifiers, in order, and [_meta.hostvars] holds under each key
    the variables of the last record with that identifier.  It carries no
    trace of the failure: document, output and exit status are those of
    the controller in which the failed fetch succeeded without records. *)
Theorem fetch_failure_degrades (c : controller)
    (devices clients : list value) :
  fetch_failed (stat_device c) = true \/ fetch_failed (stat_sta c) = true ->
  fetched (stat_device c) devices ->
  fetched (stat_sta c) clients ->
  forallb device_accepted devices = true ->
  forallb client_accepted clients = true ->
  (devices = [] \/ clients = []) /\
  (fetch_failed (stat_device c) = true -> fst (get_devices c) = VList []) /\
  (fetch_failed (stat_sta c) = true -> fst (get_clients c) = VList []) /\
  fst (get_devices c) = VList devices /\
  fst (get_clients c) = VList clients /\
  exists doc hv,
    fst (build_inventory c) = Ok doc /\
    (fst (authenticate c) = true ->
     stdout (run c) = [doc] /\ exit_status (run c) = 0%Z) /\
    (forall g, In g device_groups ->
       doc_hosts doc g = Ok (VList (device_hosts g devices))) /\
    (forall g, In g client_groups ->
       doc_hosts doc g = Ok (VList (client_hosts g clients))) /\
    doc_hostvars doc = Ok (VDict hv) /\
    (forall h,
       dict_get h hv
       = last_write h (device_writes devices ++ client_writes clients)) /\
    fst (build_inventory (quiet c)) = Ok doc /\
    stdout (run c) = stdout (run (quiet c)) /\
    exit_status (run c) = exit_status (run (quiet c)).
Proof.
  intros Hfail Hfd Hfc Had Hac.
  assert (Hgd : fst (get_devices c) = VList devices).
  { destruct Hfd as [[Hf ->] | (body & Ho & Hdata)].
    - now apply get_devices_failed.
    - unfold get_devices. rewrite Ho. cbn. now rewrite Hdata. }
  assert (Hgc : fst (get_clients c) = VList clients).
  { destruct Hfc as [[Hf ->] | (body & Ho & Hdata)].
    - now apply get_clients_failed.
    - unfold get_clients. rewrite Ho. cbn. now rewrite Hdata. }
  split.
  { destruct Hfail as [Hf | Hf].
    - left. rewrite (get_devices_failed c Hf) in Hgd. congruence.
    - right. rewrite (get_clients_failed c Hf) in Hgc. congruence. }
  split; [apply get_devices_failed |]. split; [apply get_clients_failed |].
  split; [exact Hgd |]. split; [exact Hgc |].
  destruct (steps_device_returns devices empty Had) as [s Hs].
  destruct (steps_client_returns clients s Hac) as [s' Hs'].
  assert (Hb : fst (build_inventory c) = Ok (document s')).
  { rewrite build_inventory_assemble, Hgd, Hgc. unfold assemble.
    cbn [iter bind]. rewrite Hs. cbn [bind]. now rewrite Hs'. }
  destruct (built_hostvars _ _ _ _ Hs Hs') as [Hv Hh].
  exists (document s'), (hostvars s'). split; [exact Hb |]. split.
  { intros Ha. now rewrite run_stdout, run_exit_status, Ha, Hb. }
  split.
  { intros g Hg.
    rewrite doc_hosts_document by (apply in_or_app; now left).
    rewrite (built_hosts _ _ _ _ g Hs Hs'), client_hosts_device_group by auto.
    now rewrite app_nil_r. }
  split.
  { intros g Hg.
    rewrite doc_hosts_document by (apply in_or_app; now right).
    now rewrite (built_hosts _ _ _ _ g Hs Hs'), device_hosts_client_group. }
  split; [apply doc_hostvars_document |].
  split; [intros h; now rewrite Hv, dict_get_assign_all |].
  assert (Ea : fst (authenticate (quiet c)) = fst (authenticate c))
    by reflexivity.
  split; [now rewrite build_inventory_quiet |].
  split; [now rewrite !run_stdout, Ea, build_inventory_quiet |].
  now rewrite !run_exit_status, Ea, build_inventory_quiet.
Qed.

Lemma fetch_failure_degrades_witness :
  (@nil value = [] \/ [VDict laptop] = []) /\
  (fetch_failed (stat_device devices_down) = true ->
   fst (get_devices devices_down) = VList []) /\
  (fetch_failed (stat_sta devices_down) = true ->
   fst (get_clients devices_down) = VList []) /\
  fst (get_devices devices_down) = VList [] /\
  fst (get_clients devices_down) = VList [VDict laptop] /\
  exists doc hv,
    fst (build_inventory devices_down) = Ok doc /\
    (fst (authenticate devices_down) = true ->
     stdout (run devices_down) = [doc] /\
     exit_status (run devices_down) = 0%Z) /\
    (forall g, In g device_groups ->
       doc_hosts doc g = Ok (VList (device_hosts g []))) /\
    (forall g, In g client_groups ->
       doc_hosts doc g = Ok (VList (client_hosts g [VDict laptop]))) /\
    doc_hostvars doc = Ok (VDict hv) /\
    (forall h,
       dict_get h hv
       = last_write h (device_writes [] ++ client_writes [VDict laptop])) /\
    fst (build_inventory (quiet devices_down)) = Ok doc /\
    stdout (run devices_down) = stdout (run (quiet devices_down)) /\
    exit_status (run devices_down) = exit_status (run (quiet devices_down)).
Proof.
  apply (fetch_failure_degrades devices_down [] [VDict laptop]).
  - left. reflexivity.
  - left. split; reflexivity.
  - right. eexists. split; reflexivity.
  - reflexivity.
  - reflexivity.
Defined.

(** C6.  When both fetches yield the empty list, [build_inventory] returns
    the document in which [_meta.hostvars] and the five [hosts] lists are
    empty, and the nine top-level keys [_meta], [all], [unifi_devices],
    [switches], [aps], [gateways], [unifi_clients], [wired_clients],
    [wireless_clients] are the keys present. *)
Theorem empty_inventory (c : controller) :
  fst (get_devices c) = VList [] ->
  fst (get_clients c) = VList [] ->
  exists items,
    fst (build_inventory c) = Ok (VDict items) /\
    map fst items =
      [ VStr "_meta"; VStr "all"; VStr "unifi_devices"; VStr "switches";
        VStr "aps"; VStr "gateways"; VStr "unifi_clients";
        VStr "wired_clients"; VStr "wireless_clients" ] /\
    doc_hostvars (VDict items) = Ok (VDict []) /\
    forall g, In g host_groups -> doc_hosts (VDict items) g = Ok (VList []).
Proof.
  intros Hd Hc. rewrite build_inventory_assemble, Hd, Hc.
  eexists. split; [reflexivity |]. split; [reflexivity |].
  split; [reflexivity |].
  intros g Hg. cbn in Hg.
  destruct Hg as [<- | [<- | [<- | [<- | [<- | []]]]]]; reflexivity.
Qed.

Lemma empty_inventory_witness :
  exists items,
    fst (build_inventory (serving (VList []) (VList []))) = Ok (VDict items) /\
    map fst items =
      [ VStr "_meta"; VStr "all"; VStr "unifi_devices"; VStr "switches";
        VStr "aps"; VStr "gateways"; VStr "unifi_clients";
        VStr "wired_clients"; VStr "wireless_clients" ] /\
    doc_hostvars (VDict items) = Ok (VDict []) /\
    forall g, In g host_groups -> doc_hosts (VDict items) g = Ok (VList []).
Proof.
  apply (empty_inventory (serving (VList []) (VList []))); reflexivity.
Defined.

(** C7.  Whatever the inventory holds so far, the turn of the loop for a
    device record with a hashable identifier stores under that identifier a
    mapping with the seven keys [mac_address], [ip_address], [model],
    [version], [device_type], [adoption_state], [unifi_device]: the first
    four are what [.get] returns for [mac], [ip], [model], [version], the
    type is the [type] field or ['unknown'], the adoption state is the
    [state] field when the record has one and [1] when it has none, and
    [unifi_device] is [True]. *)
Theorem device_entry_written (s : state) (device : list (value * value)) :
  hashable (device_hostname device) = true ->
  exists inventory hv vars,
    process_device (document s) (VDict device) = Ok inventory /\
    doc_hostvars inventory = Ok (VDict hv) /\
    dict_get (device_hostname device) hv = Some (VDict vars) /\
    map fst vars = device_keys /\
    getitem (VDict vars) "mac_address" = get (VDict device) "mac" VNone /\
    getitem (VDict vars) "ip_address" = get (VDict device) "ip" VNone /\
    getitem (VDict vars) "model" = get (VDict device) "model" VNone /\
    getitem (VDict vars) "version" = get (VDict device) "version" VNone /\
    getitem (VDict vars) "device_type"
      = get (VDict device) "type" (VStr "unknown") /\
    getitem (VDict vars) "adoption_state"
      = Ok match dict_get (VStr "state") device with
           | Some v => v
           | None => VInt 1
           end /\
    getitem (VDict vars) "unifi_device" = Ok (VBool true).
Proof.
  intros Hh. rewrite process_device_document, step_device_dict by exact Hh.
  cbn [bind]. eexists. exists (dict_set (device_hostname device)
                                 (device_vars device) (hostvars s)).
  eexists. split; [reflexivity |]. split.
  { rewrite doc_hostvars_document.
    now destruct (device_group (device_type device)). }
  split; [now apply dict_get_set_same |].
  rewrite !get_dict. repeat split.
Qed.

Lemma device_entry_written_witness :
  exists inventory hv vars,
    process_device (document empty) (VDict sw1) = Ok inventory /\
    doc_hostvars inventory = Ok (VDict hv) /\
    dict_get (device_hostname sw1) hv = Some (VDict vars) /\
    map fst vars = device_keys /\
    getitem (VDict vars) "mac_address" = get (VDict sw1) "mac" VNone /\
    getitem (VDict vars) "ip_address" = get (VDict sw1) "ip" VNone /\
    getitem (VDict vars) "model" = get (VDict sw1) "model" VNone /\
    getitem (VDict vars) "version" = get (VDict sw1) "version" VNone /\
    getitem (VDict vars) "device_type"
      = get (VDict sw1) "type" (VStr "unknown") /\
    getitem (VDict vars) "adoption_state"
      = Ok match dict_get (VStr "state") sw1 with
           | Some v => v
           | None => VInt 1
           end /\
    getitem (VDict vars) "unifi_device" = Ok (VBool true).
Proof. apply (device_entry_written empty sw1). reflexivity. Defined.

(** C8.  Nothing is removed from a [hosts] list.  With two device records
    that derive the same identifier and have the same type code among
    [usw], [uap], [ugw], the [hosts] list of the sub-group of that code
    holds the identifier twice; with two client records that derive the
    same identifier and are both wired or both wireless, so does the
    [hosts] list of their sub-group. *)
Theorem no_deduplication (c : controller)
    (d1 d2 c1 c2 : list (value * value)) (g : string) (doc : value) :
  fst (get_devices c) = VList [VDict d1; VDict d2] ->
  fst (get_clients c) = VList [VDict c1; VDict c2] ->
  device_hostname d1 = device_hostname d2 ->
  device_group (device_type d1) = Some g ->
  device_group (device_type d2) = Some g ->
  client_hostname c1 = client_hostname c2 ->
  client_is_wired c1 = client_is_wired c2 ->
  fst (build_inventory c) = Ok doc ->
  doc_hosts doc g = Ok (VList [device_hostname d1; device_hostname d1]) /\
  doc_hosts doc (client_group (client_is_wired c1))
    = Ok (VList [client_hostname c1; client_hostname c1]).
Proof.
  intros Hdev Hcli Eh E1 E2 Ech Ew H. apply build_inventory_returns in H.
  destruct H as (ds & s & cs & s' & Hds & Hd & Hcs & Hc & ->).
  rewrite Hdev in Hds. rewrite Hcli in Hcs. cbn in Hds, Hcs.
  injection Hds as <-. injection Hcs as <-. split.
  - rewrite doc_hosts_document by (eapply device_group_host; eauto).
    rewrite (built_hosts _ _ _ _ g Hd Hc).
    rewrite client_hosts_device_group
      by (eapply device_group_known; eauto).
    cbn. now rewrite E1, E2, String.eqb_refl, Eh.
  - rewrite doc_hosts_document by apply client_group_host.
    rewrite (built_hosts _ _ _ _ _ Hd Hc).
    rewrite device_hosts_client_group
      by (destruct (client_is_wired c1); cbn; auto).
    cbn. now rewrite <- Ew, String.eqb_refl, Ech.
Qed.

Lemma no_deduplication_witness :
  doc_hosts twin_document "switches" = Ok (VList [VStr "sw1"; VStr "sw1"]) /\
  doc_hosts twin_document "wireless_clients"
    = Ok (VList [VStr "cc:dd"; VStr "cc:dd"]).
Proof.
  apply (no_deduplication twin_site sw1 sw1 laptop laptop "switches");
    reflexivity.
Defined.

(** C9.  When authentication fails, [run] ends the process with status 1,
    the last line on standard error is [Authentication failed], and
    nothing is printed on standard output. *)
Theorem authentication_failure_exits (c : controller) :
  authentication_fails c ->
  fst (authenticate c) = false /\
  stdout (run c) = [] /\
  exit_status (run c) = 1%Z /\
  exit_status (run c) <> 0%Z /\
  exists err, stderr (run c) = err ++ [Message "Authentication failed"].
Proof.
  intros Hfail.
  assert (Ha : fst (authenticate c) = false).
  { unfold authenticate. destruct Hfail as [[e He] | Hl].
    - now rewrite He.
    - destruct (credential c); [| reflexivity].
      unfold failed in Hl. destruct (login c) as [e | status json];
        [reflexivity |].
      cbn. now destruct (status =? 200)%Z. }
  split; [exact Ha |].
  rewrite run_stdout, run_exit_status, Ha.
  repeat split; try discriminate.
  unfold run. destruct (authenticate c) as [ok err]. cbn in Ha. subst ok.
  now exists err.
Qed.

Lemma authentication_failure_exits_witness :
  fst (authenticate unauthorized) = false /\
  stdout (run unauthorized) = [] /\
  exit_status (run unauthorized) = 1%Z /\
  exit_status (run unauthorized) <> 0%Z /\
  exists err,
    stderr (run unauthorized) = err ++ [Message "Authentication failed"].
Proof.
  apply (authentication_failure_exits unauthorized). right. reflexivity.
Defined.

(** C10.  In the document [build_inventory] returns, every value of
    [_meta.hostvars] is of exactly one kind: the seven device keys with
    [unifi_device] set to [True] and no [unifi_client], or the six client
    keys with [unifi_client] set to [True] and no [unifi_device]; never
    both.  This holds whatever the two fetches returned. *)
Theorem entries_one_kind (c : controller) (doc : value) :
  fst (build_inventory c) = Ok doc ->
  exists hv,
    doc_hostvars doc = Ok (VDict hv) /\
    forall k e, In (k, e) hv ->
      (device_entry e \/ client_entry e) /\
      ~ (device_entry e /\ client_entry e).
Proof.
  intros H. apply build_inventory_returns in H.
  destruct H as (ds & s & cs & s' & _ & Hd & _ & Hc & ->).
  exists (hostvars s'). split; [apply doc_hostvars_document |].
  assert (Hw : entries_whole s').
  { apply (steps_invariant entries_whole step_client step_client_whole
             cs s s'); [| exact Hc].
    apply (steps_invariant entries_whole step_device step_device_whole
             ds empty s); [| exact Hd].
    intros k e []. }
  intros k e Hin. split; [eapply Hw; eauto |].
  intros [H1 H2]. eapply entries_exclusive; eauto.
Qed.

Lemma entries_one_kind_witness :
  exists hv,
    doc_hostvars collision_document = Ok (VDict hv) /\
    forall k e, In (k, e) hv ->
      (device_entry e \/ client_entry e) /\
      ~ (device_entry e /\ client_entry e).
Proof. apply (entries_one_kind collision_site). reflexivity. Defined.

(** ** Further properties *)

(** X1.  Whatever the inventory holds so far, the turn of the loop for a
    client record with a hashable identifier stores under that identifier a
    mapping with the six keys [mac_address], [ip_address], [hostname],
    [is_wired], [last_seen], [unifi_client]: what [.get] returns for [mac],
    [ip], [hostname] and [last_seen], the wired flag with [False] when the
    record has none, and [unifi_client] set to [True]. *)
Theorem client_entry_written (s : state) (client : list (value * value)) :
  hashable (client_hostname client) = true ->
  exists inventory hv vars,
    process_client (document s) (VDict client) = Ok inventory /\
    doc_hostvars inventory = Ok (VDict hv) /\
    dict_get (client_hostname client) hv = Some (VDict vars) /\
    map fst vars = client_keys /\
    getitem (VDict vars) "mac_address" = get (VDict client) "mac" VNone /\
    getitem (VDict vars) "ip_address" = get (VDict client) "ip" VNone /\
    getitem (VDict vars) "hostname" = get (VDict client) "hostname" VNone /\
    getitem (VDict vars) "is_wired"
      = Ok match dict_get (VStr "is_wired") client with
           | Some v => v
           | None => VBool false
           end /\
    getitem (VDict vars) "last_seen"
      = get (VDict client) "last_seen" VNone /\
    getitem (VDict vars) "unifi_client" = Ok (VBool true).
Proof.
  intros Hh. rewrite process_client_document, step_client_dict by exact Hh.
  cbn [bind]. eexists. exists (dict_set (client_hostname client)
                                 (client_vars client) (hostvars s)).
  eexists. split; [reflexivity |].
  split; [now rewrite doc_hostvars_document |].
  split; [now apply dict_get_set_same |].
  rewrite !get_dict. repeat split.
Qed.

Lemma client_entry_written_witness :
  exists inventory hv vars,
    process_client (document empty) (VDict laptop) = Ok inventory /\
    doc_hostvars inventory = Ok (VDict hv) /\
    dict_get (client_hostname laptop) hv = Some (VDict vars) /\
    map fst vars = client_keys /\
    getitem (VDict vars) "mac_address" = get (VDict laptop) "mac" VNone /\
    getitem (VDict vars) "ip_address" = get (VDict laptop) "ip" VNone /\
    getitem (VDict vars) "hostname" = get (VDict laptop) "hostname" VNone /\
    getitem (VDict vars) "is_wired"
      = Ok match dict_get (VStr "is_wired") laptop with
           | Some v => v
           | None => VBool false
           end /\
    getitem (VDict vars) "last_seen"
      = get (VDict laptop) "last_seen" VNone /\
    getitem (VDict vars) "unifi_client" = Ok (VBool true).
Proof. apply (client_entry_written empty laptop). reflexivity. Defined.

(** X2.  Each [hosts] list holds, in the order fetched and once per record,
    the identifiers of the records that select its sub-group: the devices
    with its type code for [switches], [aps] and [gateways], the clients
    with its wired flag for [wired_clients] and [wireless_clients].  No
    client is in a device sub-group and no device in a client one. *)
Theorem hosts_in_fetch_order (c : controller) (devices clients : list value)
    (doc : value) :
  fst (get_devices c) = VList devices ->
  fst (get_clients c) = VList clients ->
  fst (build_inventory c) = Ok doc ->
  (forall g, In g device_groups ->
     doc_hosts doc g = Ok (VList (device_hosts g devices))) /\
  (forall g, In g client_groups ->
     doc_hosts doc g = Ok (VList (client_hosts g clients))).
Proof.
  intros Hdev Hcli H.
  destruct (build_inventory_lists c devices clients doc Hdev Hcli H)
    as (s & s' & Hd & Hc & ->).
  split; intros g Hg.
  - rewrite doc_hosts_document by (apply in_or_app; now left).
    rewrite (built_hosts _ _ _ _ g Hd Hc), client_hosts_device_group by auto.
    now rewrite app_nil_r.
  - rewrite doc_hosts_document by (apply in_or_app; now right).
    now rewrite (built_hosts _ _ _ _ g Hd Hc), device_hosts_client_group.
Qed.

Lemma hosts_in_fetch_order_witness :
  (forall g, In g device_groups ->
     doc_hosts twin_document g
       = Ok (VList (device_hosts g [VDict sw1; VDict sw1]))) /\
  (forall g, In g client_groups ->
     doc_hosts twin_document g
       = Ok (VList (client_hosts g [VDict laptop; VDict laptop]))).
Proof. apply (hosts_in_fetch_order twin_site); reflexivity. Defined.

Lemma device_hosts_sizes (items : list value) :
  (List.length (device_hosts "switches" items)
   + List.length (device_hosts "aps" items)
   + List.length (device_hosts "gateways" items)
   = List.length (filter grouped items))%nat.
Proof.
  induction items as [| x rest IH]; [reflexivity |].
  cbn [device_hosts flat_map filter].
  fold (device_hosts "switches" rest) (device_hosts "aps" rest)
       (device_hosts "gateways" rest).
  rewrite !length_app.
  destruct x as [| | | | | d]; cbn [grouped List.length]; try exact IH.
  destruct (device_group (device_type d)) as [g |] eqn:E; [| exact IH].
  apply device_group_known in E. cbn in E.
  destruct E as [<- | [<- | [<- | []]]]; cbn; lia.
Qed.

Lemma client_hosts_sizes (items : list value) :
  forallb client_accepted items = true ->
  (List.length (client_hosts "wired_clients" items)
   + List.length (client_hosts "wireless_clients" items)
   = List.length items)%nat.
Proof.
  induction items as [| x rest IH]; [reflexivity |].
  cbn [forallb]. intros H. apply andb_prop in H. destruct H as [Hx Hrest].
  specialize (IH Hrest).
  cbn [client_hosts flat_map].
  fold (client_hosts "wired_clients" rest)
       (client_hosts "wireless_clients" rest).
  rewrite !length_app.
  destruct x as [| | | | | d]; try discriminate.
  destruct (client_is_wired d); cbn; lia.
Qed.

(** X3.  Every client is in exactly one of the two client lists, so their
    lengths add up to the number of clients fetched; the lengths of the
    three device lists add up to the number of devices whose type is [usw],
    [uap] or [ugw], which is at most the number of devices fetched. *)
Theorem group_sizes (c : controller) (devices clients : list value)
    (doc : value) :
  fst (get_devices c) = VList devices ->
  fst (get_clients c) = VList clients ->
  fst (build_inventory c) = Ok doc ->
  exists sw ap gw wi wl,
    doc_hosts doc "switches" = Ok (VList sw) /\
    doc_hosts doc "aps" = Ok (VList ap) /\
    doc_hosts doc "gateways" = Ok (VList gw) /\
    doc_hosts doc "wired_clients" = Ok (VList wi) /\
    doc_hosts doc "wireless_clients" = Ok (VList wl) /\
    (List.length wi + List.length wl = List.length clients)%nat /\
    (List.length sw + List.length ap + List.length gw
     = List.length (filter grouped devices))%nat /\
    (List.length sw + List.length ap + List.length gw
     <= List.length devices)%nat.
Proof.
  intros Hdev Hcli H.
  destruct (build_inventory_lists c devices clients doc Hdev Hcli H)
    as (s & s' & Hd & Hc & ->).
  exists (hosts s' "switches"), (hosts s' "aps"), (hosts s' "gateways"),
         (hosts s' "wired_clients"), (hosts s' "wireless_clients").
  repeat (split; [reflexivity |]).
  pose proof (fun g => built_hosts devices clients s s' g Hd Hc) as B.
  rewrite !B.
  rewrite (client_hosts_device_group "switches"),
    (client_hosts_device_group "aps"),
    (client_hosts_device_group "gateways") by (cbn; auto).
  rewrite (device_hosts_client_group "wired_clients"),
    (device_hosts_client_group "wireless_clients") by (cbn; auto).
  rewrite !app_nil_r. cbn [app].
  split; [apply client_hosts_sizes; eapply steps_client_accepted; eauto |].
  split; [apply device_hosts_sizes |].
  rewrite device_hosts_sizes. apply filter_length_le.
Qed.

Lemma group_sizes_witness :
  exists sw ap gw wi wl,
    doc_hosts small_site_document "switches" = Ok (VList sw) /\
    doc_hosts small_site_document "aps" = Ok (VList ap) /\
    doc_hosts small_site_document "gateways" = Ok (VList gw) /\
    doc_hosts small_site_document "wired_clients" = Ok (VList wi) /\
    doc_hosts small_site_document "wireless_clients" = Ok (VList wl) /\
    (List.length wi + List.length wl = List.length [VDict laptop])%nat /\
    (List.length sw + List.length ap + List.length gw
     = List.length (filter grouped [VDict sw1]))%nat /\
    (List.length sw + List.length ap + List.length gw
     <= List.length [VDict sw1])%nat.
Proof. apply (group_sizes small_site); reflexivity. Defined.

(** X4.  With lists of records from both fetches, [build_inventory]
    returns a document exactly when every record is a dictionary whose
    identifier can be a key ([None], a [bool], a number or a [str]). *)
Theorem build_inventory_returns_iff (c : controller)
    (devices clients : list value) :
  fst (get_devices c) = VList devices ->
  fst (get_clients c) = VList clients ->
  (exists doc, fst (build_inventory c) = Ok doc) <->
  forallb device_accepted devices = true /\
  forallb client_accepted clients = true.
Proof.
  intros Hdev Hcli. split.
  - intros [doc H].
    destruct (build_inventory_lists c devices clients doc Hdev Hcli H)
      as (s & s' & Hd & Hc & _).
    split; [eapply steps_device_accepted | eapply steps_client_accepted];
      eauto.
  - intros [Hd Hc].
    destruct (build_inventory_total c devices clients Hdev Hcli Hd Hc)
      as [s Hs].
    now exists (document s).
Qed.

Lemma build_inventory_returns_iff_witness :
  (exists doc, fst (build_inventory small_site) = Ok doc) <->
  forallb device_accepted [VDict sw1] = true /\
  forallb client_accepted [VDict laptop] = true.
Proof. apply (build_inventory_returns_iff small_site); reflexivity. Defined.

(** X5.  The first record that is not a dictionary with a hashable
    identifier ends [build_inventory]: it raises [AttributeError] when the
    record is not a dictionary and [TypeError] when its identifier is a
    list or a dictionary.  The devices come first; a client can only be
    the one when every device was accepted. *)
Theorem first_rejected_record (c : controller)
    (devices clients : list value) (x : value) :
  fst (get_devices c) = VList devices ->
  fst (get_clients c) = VList clients ->
  find (fun y => negb (device_accepted y)) devices = Some x \/
  (forallb device_accepted devices = true /\
   find (fun y => negb (client_accepted y)) clients = Some x) ->
  fst (build_inventory c) = Raise (rejection x).
Proof.
  intros Hdev Hcli H.
  rewrite build_inventory_assemble, Hdev, Hcli. unfold assemble.
  cbn [iter bind]. destruct H as [H | [Hd H]].
  - now rewrite (steps_device_rejected devices empty x H).
  - destruct (steps_device_returns devices empty Hd) as [s Hs].
    rewrite Hs. cbn [bind].
    now rewrite (steps_client_rejected clients s x H).
Qed.

Lemma first_rejected_record_witness :
  fst (build_inventory odd_site) = Raise (rejection (VInt 7)).
Proof.
  apply (first_rejected_record odd_site
           [VDict sw1; VInt 7; VDict laptop] [VDict laptop]);
    try reflexivity.
  left. reflexivity.
Defined.

Lemma build_inventory_stderr (c : controller) :
  snd (build_inventory c) =
  match (items <- iter (fst (get_devices c)) ;;
         steps step_device empty items) with
  | Ok _ => snd (get_devices c) ++ snd (get_clients c)
  | Raise _ => snd (get_devices c)
  end.
Proof.
  unfold build_inventory.
  destruct (get_devices c) as [devices err1].
  destruct (get_clients c) as [clients err2]. cbn [fst snd].
  destruct (iter devices) as [ds | e]; cbn [bind]; [| reflexivity].
  rewrite skeleton_document, for_each_device_document.
  now destruct (steps step_device empty ds).
Qed.

(** X6.  The clients are fetched once the loop over the devices is over:
    when every device is accepted, what [build_inventory] writes to
    standard error is what [get_devices] wrote followed by what
    [get_clients] wrote; when a device is rejected, [get_clients] is not
    called and nothing of it is written. *)
Theorem clients_fetched_after_devices (c : controller)
    (devices : list value) :
  fst (get_devices c) = VList devices ->
  (forallb device_accepted devices = true ->
   snd (build_inventory c) = snd (get_devices c) ++ snd (get_clients c)) /\
  (forallb device_accepted devices = false ->
   snd (build_inventory c) = snd (get_devices c) /\
   exists e, fst (build_inventory c) = Raise e).
Proof.
  intros Hdev. rewrite build_inventory_stderr, build_inventory_assemble.
  unfold assemble. rewrite Hdev. cbn [iter bind]. split; intros H.
  - destruct (steps_device_returns devices empty H) as [s Hs]. now rewrite Hs.
  - destruct (steps step_device empty devices) as [s | e] eqn:E.
    + apply steps_device_accepted in E. congruence.
    + split; [reflexivity |]. now exists e.
Qed.

Lemma clients_fetched_after_devices_witness :
  (forallb device_accepted [VDict sw1; VInt 7; VDict laptop] = true ->
   snd (build_inventory odd_site)
     = snd (get_devices odd_site) ++ snd (get_clients odd_site)) /\
  (forallb device_accepted [VDict sw1; VInt 7; VDict laptop] = false ->
   snd (build_inventory odd_site) = snd (get_devices odd_site) /\
   exists e, fst (build_inventory odd_site) = Raise e).
Proof. apply (clients_fetched_after_devices odd_site). reflexivity. Defined.

Lemma run_stderr (c : controller) :
  fst (authenticate c) = true ->
  stderr (run c) =
  snd (authenticate c) ++ snd (build_inventory c) ++
  match fst (build_inventory c) with
  | Ok _ => []
  | Raise e => [Traceback e]
  end.
Proof.
  unfold run. destruct (authenticate c) as [ok err]. cbn [fst snd].
  intros ->. cbn [negb].
  destruct (build_inventory c) as [[inventory | e] err']; cbn [fst snd];
    [now rewrite app_nil_r | reflexivity].
Qed.

(** X7.  A device fetch answered with status 200 and a body whose [data]
    is [null], a boolean or a number is not a failed fetch: [get_devices]
    returns that value and writes nothing, the loop over it raises
    [TypeError], the clients are not fetched, and once authenticated [run]
    prints nothing and ends with status 1 and the traceback. *)
Theorem data_not_iterable (c : controller) (body : list (value * value))
    (v : value) :
  stat_device c = Returns 200 (Ok (VDict body)) ->
  dict_get (VStr "data") body = Some v ->
  v = VNone \/ (exists b, v = VBool b) \/ (exists n, v = VInt n) ->
  get_devices c = (v, []) /\
  build_inventory c = (Raise TypeError, []) /\
  (fst (authenticate c) = true ->
   stdout (run c) = [] /\
   exit_status (run c) = 1%Z /\
   stderr (run c) = snd (authenticate c) ++ [Traceback TypeError]).
Proof.
  intros Hs Hdata Hv.
  assert (Hg : get_devices c = (v, [])).
  { unfold get_devices. rewrite Hs. cbn. now rewrite Hdata. }
  assert (Hi : iter v = Raise TypeError).
  { destruct Hv as [-> | [[b ->] | [n ->]]]; reflexivity. }
  assert (Hb : build_inventory c = (Raise TypeError, [])).
  { unfold build_inventory. rewrite Hg, Hi. reflexivity. }
  split; [exact Hg |]. split; [exact Hb |].
  intros Ha. rewrite run_stdout, run_exit_status, run_stderr by exact Ha.
  rewrite Ha, Hb. cbn [fst snd app]. auto.
Qed.

Lemma data_not_iterable_witness :
  get_devices null_data_site = (VNone, []) /\
  build_inventory null_data_site = (Raise TypeError, []) /\
  (fst (authenticate null_data_site) = true ->
   stdout (run null_data_site) = [] /\
   exit_status (run null_data_site) = 1%Z /\
   stderr (run null_data_site)
     = snd (authenticate null_data_site) ++ [Traceback TypeError]).
Proof.
  apply (data_not_iterable null_data_site [ (VStr "data", VNone) ] VNone);
    try reflexivity.
  left. reflexivity.
Defined.

(** X10.  [run] prints one document and ends with status 0 exactly when
    authentication succeeded and [build_inventory] returned that document;
    in every other case it prints nothing and ends with status 1. *)
Theorem run_prints_or_fails (c : controller) :
  (exit_status (run c) = 0%Z /\
   fst (authenticate c) = true /\
   exists doc, fst (build_inventory c) = Ok doc /\ stdout (run c) = [doc]) \/
  (exit_status (run c) = 1%Z /\
   stdout (run c) = [] /\
   (fst (authenticate c) = false \/
    exists e, fst (build_inventory c) = Raise e)).
Proof.
  rewrite run_stdout, run_exit_status.
  destruct (fst (authenticate c)); [| right; auto].
  destruct (fst (build_inventory c)) as [doc | e].
  - left. repeat split. now exists doc.
  - right. repeat split. right. now exists e.
Qed.

Lemma writes_In (devices clients : list value) (k v : value) :
  In (k, v) (device_writes devices ++ client_writes clients) <->
  (exists d, In (VDict d) devices /\ k = device_hostname d /\
             v = device_vars d) \/
  (exists d, In (VDict d) clients /\ k = client_hostname d /\
             v = client_vars d).
Proof. now rewrite in_app_iff, device_writes_In, client_writes_In. Qed.

(** X8.  The keys of [_meta.hostvars] are the identifiers of the records
    fetched and nothing else: [h in hostvars] holds exactly when a device
    or a client derives an identifier equal to [h]. *)
Theorem hostvars_keys_are_identifiers (c : controller)
    (devices clients : list value) (doc : value) :
  fst (get_devices c) = VList devices ->
  fst (get_clients c) = VList clients ->
  fst (build_inventory c) = Ok doc ->
  exists hv,
    doc_hostvars doc = Ok (VDict hv) /\
    forall h,
      dict_mem h hv = true <->
      (exists d, In (VDict d) devices /\
                 key_eqb (device_hostname d) h = true) \/
      (exists d, In (VDict d) clients /\
                 key_eqb (client_hostname d) h = true).
Proof.
  intros Hdev Hcli H.
  destruct (build_inventory_lists c devices clients doc Hdev Hcli H)
    as (s & s' & Hd & Hc & ->).
  exists (hostvars s'). split; [apply doc_hostvars_document |].
  destruct (built_hostvars _ _ _ _ Hd Hc) as [Hv Hh].
  intros h. unfold dict_mem. rewrite Hv, dict_get_assign_all by exact Hh.
  cbn [dict_get]. split.
  - intros Hsome.
    destruct (Exists_dec (fun kv => key_eqb (fst kv) h = true)
                (device_writes devices ++ client_writes clients)) as [E | E].
    { intros kv. destruct (key_eqb (fst kv) h); [now left | now right]. }
    + apply Exists_exists in E. destruct E as ([k v] & Hin & Hk).
      apply writes_In in Hin. cbn [fst] in Hk.
      destruct Hin as [(d & Hin & -> & _) | (d & Hin & -> & _)];
        [left | right]; now exists d.
    + exfalso.
      assert (Hnone : fold_left
                (fun acc kv =>
                   if key_eqb (fst kv) h then Some (snd kv) else acc)
                (device_writes devices ++ client_writes clients) None = None).
      { apply last_write_from. split; [reflexivity |].
        apply Forall_forall. intros kv Hin.
        destruct (key_eqb (fst kv) h) eqn:Ek; [| reflexivity].
        exfalso. apply E. apply Exists_exists. now exists kv. }
      rewrite Hnone in Hsome. discriminate.
  - intros Hex.
    destruct (fold_left _ _ None) eqn:E; [reflexivity |]. exfalso.
    apply last_write_from in E. destruct E as [_ E].
    rewrite Forall_forall in E.
    destruct Hex as [(d & Hin & Hk) | (d & Hin & Hk)].
    + specialize (E (device_hostname d, device_vars d)).
      cbn [fst] in E. rewrite E in Hk; [discriminate |].
      apply writes_In. left. now exists d.
    + specialize (E (client_hostname d, client_vars d)).
      cbn [fst] in E. rewrite E in Hk; [discriminate |].
      apply writes_In. right. now exists d.
Qed.

Lemma hostvars_keys_are_identifiers_witness :
  exists hv,
    doc_hostvars collision_document = Ok (VDict hv) /\
    forall h,
      dict_mem h hv = true <->
      (exists d, In (VDict d) [VDict camera] /\
                 key_eqb (device_hostname d) h = true) \/
      (exists d, In (VDict d) [VDict desktop] /\
                 key_eqb (client_hostname d) h = true).
Proof.
  apply (hostvars_keys_are_identifiers collision_site); reflexivity.
Defined.

(** X9.  The value of [_meta.hostvars] under a key is the variable mapping
    of the last record, devices first and clients after them, whose
    identifier equals that key; there is none when no record has such an
    identifier. *)
Theorem last_writer_wins (c : controller) (devices clients : list value)
    (doc : value) :
  fst (get_devices c) = VList devices ->
  fst (get_clients c) = VList clients ->
  fst (build_inventory c) = Ok doc ->
  exists hv,
    doc_hostvars doc = Ok (VDict hv) /\
    forall h,
      dict_get h hv
      = last_write h (device_writes devices ++ client_writes clients).
Proof.
  intros Hdev Hcli H.
  destruct (build_inventory_lists c devices clients doc Hdev Hcli H)
    as (s & s' & Hd & Hc & ->).
  exists (hostvars s'). split; [apply doc_hostvars_document |].
  destruct (built_hostvars _ _ _ _ Hd Hc) as [Hv Hh].
  intros h. now rewrite Hv, dict_get_assign_all.
Qed.

Lemma last_writer_wins_witness :
  exists hv,
    doc_hostvars shared_name_document = Ok (VDict hv) /\
    forall h,
      dict_get h hv
      = last_write h
          (device_writes [VDict core_switch; VDict core_other]
           ++ client_writes []).
Proof. apply (last_writer_wins shared_name_site); reflexivity. Defined.

Lemma ForallOrdPairs_snoc (A : Type) (R : A -> A -> Prop) (l : list A)
    (x : A) :
  ForallOrdPairs R l -> Forall (fun a => R a x) l ->
  ForallOrdPairs R (l ++ [x]).
Proof.
  induction 1 as [| a l Ha Hl IH]; cbn; intros Hx.
  - constructor; constructor.
  - inversion Hx; subst. constructor; [| auto].
    apply Forall_app. split; [exact Ha | now constructor].
Qed.

Lemma dict_set_proper (k v : value) (d : list (value * value)) :
  hashable k = true -> keys_proper d -> keys_proper (dict_set k v d).
Proof.
  intros Hk [Hh Hd]. unfold keys_proper. rewrite dict_set_keys.
  unfold dict_mem. destruct (dict_get k d) eqn:E; [now split |].
  apply dict_get_none in E. split.
  - apply Forall_app. split; [exact Hh | now constructor].
  - now apply ForallOrdPairs_snoc.
Qed.

Lemma step_device_proper (s : state) (x : value) (s' : state) :
  keys_proper (hostvars s) -> step_device s x = Ok s' ->
  keys_proper (hostvars s').
Proof.
  intros Hs E. apply step_device_inv in E. destruct E as (d & -> & Hh & ->).
  destruct (device_group (device_type d)); cbn; now apply dict_set_proper.
Qed.

Lemma step_client_proper (s : state) (x : value) (s' : state) :
  keys_proper (hostvars s) -> step_client s x = Ok s' ->
  keys_proper (hostvars s').
Proof.
  intros Hs E. apply step_client_inv in E. destruct E as (d & -> & Hh & ->).
  cbn. now apply dict_set_proper.
Qed.

(** X11.  In the document [build_inventory] returns, the keys of
    [_meta.hostvars] are hashable and no two of them are equal, whatever
    the two fetches returned: records with equal identifiers share one
    key. *)
Theorem hostvars_keys_distinct (c : controller) (doc : value) :
  fst (build_inventory c) = Ok doc ->
  exists hv,
    doc_hostvars doc = Ok (VDict hv) /\
    Forall (fun k => hashable k = true) (map fst hv) /\
    ForallOrdPairs (fun a b => key_eqb a b = false) (map fst hv).
Proof.
  intros H. apply build_inventory_returns in H.
  destruct H as (ds & s & cs & s' & _ & Hd & _ & Hc & ->).
  exists (hostvars s'). split; [apply doc_hostvars_document |].
  apply (steps_invariant (fun s => keys_proper (hostvars s)) step_client
           step_client_proper cs s s'); [| exact Hc].
  apply (steps_invariant (fun s => keys_proper (hostvars s)) step_device
           step_device_proper ds empty s); [| exact Hd].
  split; constructor.
Qed.

Lemma hostvars_keys_distinct_witness :
  exists hv,
    doc_hostvars twin_document = Ok (VDict hv) /\
    Forall (fun k => hashable k = true) (map fst hv) /\
    ForallOrdPairs (fun a b => key_eqb a b = false) (map fst hv).
Proof. apply (hostvars_keys_distinct twin_site). reflexivity. Defined.

(** X12.  When [UNIFI_USERNAME] or [UNIFI_PASSWORD] is unset or empty,
    [__init__] ends the process: the message goes to standard error, the
    status is 1, nothing is printed, and the outcome does not depend on
    the controller, which is never contacted. *)
Theorem startup_requires_credentials (environ : string -> option string)
    (world : config -> controller) :
  set_and_not_empty (environ "UNIFI_USERNAME") = false \/
  set_and_not_empty (environ "UNIFI_PASSWORD") = false ->
  init environ =
    Exit "Missing required environment variables UNIFI_USERNAME or UNIFI_PASSWORD"
  /\
  main_block environ world =
    {| stdout := [];
       stderr := [Message
         "Missing required environment variables UNIFI_USERNAME or UNIFI_PASSWORD"];
       exit_status := 1 |}.
Proof.
  intros H.
  assert (E : init environ =
    Exit "Missing required environment variables UNIFI_USERNAME or UNIFI_PASSWORD").
  { unfold init. destruct H as [-> | ->]; [reflexivity |].
    now rewrite andb_false_r. }
  split; [exact E |]. unfold main_block. now rewrite E.
Qed.

Lemma startup_requires_credentials_witness :
  init no_environment =
    Exit "Missing required environment variables UNIFI_USERNAME or UNIFI_PASSWORD"
  /\
  main_block no_environment (fun _ => small_site) =
    {| stdout := [];
       stderr := [Message
         "Missing required environment variables UNIFI_USERNAME or UNIFI_PASSWORD"];
       exit_status := 1 |}.
Proof.
  apply (startup_requires_credentials no_environment (fun _ => small_site)).
  left. reflexivity.
Defined.

(** X13.  With both credentials set and not empty, [__init__] returns an
    instance and the main block runs against its controller.  TLS
    verification is on by default: it is off exactly when
    [UNIFI_ALLOW_INSECURE] is set to a value that, in lower case, is
    [true], [1] or [yes]. *)
Theorem tls_verified_by_default (environ : string -> option string)
    (world : config -> controller) :
  set_and_not_empty (environ "UNIFI_USERNAME") = true ->
  set_and_not_empty (environ "UNIFI_PASSWORD") = true ->
  exists cfg,
    init environ = Instance cfg /\
    main_block environ world = run (world cfg) /\
    verify cfg = negb (allow_insecure cfg) /\
    (verify cfg = false <->
     exists v, environ "UNIFI_ALLOW_INSECURE" = Some v /\
               In (lower v) ["true"; "1"; "yes"]).
Proof.
  intros Hu Hp. unfold main_block, init. rewrite Hu, Hp. cbn [andb negb].
  eexists. split; [reflexivity |]. split; [reflexivity |].
  cbn [verify allow_insecure]. split; [reflexivity |].
  unfold getenv.
  destruct (existsb _ _) eqn:Ex.
  - split; [intros _ | reflexivity].
    apply existsb_exists in Ex. destruct Ex as (w & Hin & Hw).
    apply String.eqb_eq in Hw. subst w.
    destruct (environ "UNIFI_ALLOW_INSECURE") as [v |]; [now exists v |].
    cbn in Hin. destruct Hin as [[=] | [[=] | [[=] | []]]].
  - split; [discriminate |]. intros (v & E & Hin). exfalso.
    rewrite E in Ex.
    assert (Ht : existsb (String.eqb (lower v)) ["true"; "1"; "yes"] = true).
    { apply existsb_exists. exists (lower v). split; [exact Hin |].
      apply String.eqb_refl. }
    congruence.
Qed.

Lemma tls_verified_by_default_witness :
  exists cfg,
    init lab_environment = Instance cfg /\
    main_block lab_environment (fun _ => small_site)
      = run ((fun _ => small_site) cfg) /\
    verify cfg = negb (allow_insecure cfg) /\
    (verify cfg = false <->
     exists v, lab_environment "UNIFI_ALLOW_INSECURE" = Some v /\
               In (lower v) ["true"; "1"; "yes"]).
Proof.
  apply (tls_verified_by_default lab_environment (fun _ => small_site));
    reflexivity.
Defined.

(** X14.  Whatever was fetched, the document [build_inventory] returns has
    the nine top-level keys of the skeleton in their order, and the
    [children] of [all], [unifi_devices] and [unifi_clients] are the lists
    it started with. *)
Theorem fixed_part_kept (c : controller) (doc : value) :
  fst (build_inventory c) = Ok doc ->
  exists items,
    doc = VDict items /\
    map fst items = top_level_keys /\
    getitem doc "all"
      = Ok (VDict [ (VStr "children",
                     VList [VStr "unifi_devices"; VStr "unifi_clients"]) ]) /\
    getitem doc "unifi_devices"
      = Ok (VDict [ (VStr "children",
                     VList [VStr "switches"; VStr "aps"; VStr "gateways"]) ]) /\
    getitem doc "unifi_clients"
      = Ok (VDict [ (VStr "children",
                     VList [VStr "wired_clients"; VStr "wireless_clients"]) ]).
Proof.
  intros H. apply build_inventory_returns in H.
  destruct H as (ds & s & cs & s' & _ & _ & _ & _ & ->).
  eexists. split; [reflexivity |]. repeat split.
Qed.

Lemma fixed_part_kept_witness :
  exists items,
    small_site_document = VDict items /\
    map fst items = top_level_keys /\
    getitem small_site_document "all"
      = Ok (VDict [ (VStr "children",
                     VList [VStr "unifi_devices"; VStr "unifi_clients"]) ]) /\
    getitem small_site_document "unifi_devices"
      = Ok (VDict [ (VStr "children",
                     VList [VStr "switches"; VStr "aps"; VStr "gateways"]) ]) /\
    getitem small_site_document "unifi_clients"
      = Ok (VDict [ (VStr "children",
                     VList [VStr "wired_clients"; VStr "wireless_clients"]) ]).
Proof. apply (fixed_part_kept small_site). reflexivity. Defined.

Lemma build_inventory_ext (c1 c2 : controller) :
  get_devices c1 = get_devices c2 ->
  get_clients c1 = get_clients c2 ->
  build_inventory c1 = build_inventory c2.
Proof. unfold build_inventory. now intros -> ->. Qed.

Lemma run_ext (c1 c2 : controller) :
  authenticate c1 = authenticate c2 ->
  build_inventory c1 = build_inventory c2 ->
  run c1 = run c2.
Proof. unfold run. now intros -> ->. Qed.

Lemma get_devices_status (c : controller) (status : Z) (json : result value) :
  status <> 200%Z ->
  stat_device c = Returns status json -> get_devices c = (VList [], []).
Proof.
  intros Hs E. unfold get_devices. rewrite E.
  destruct (status =? 200)%Z eqn:E'; [| reflexivity].
  apply Z.eqb_eq in E'. contradiction.
Qed.

Lemma get_clients_status (c : controller) (status : Z) (json : result value) :
  status <> 200%Z ->
  stat_sta c = Returns status json -> get_clients c = (VList [], []).
Proof.
  intros Hs E. unfold get_clients. rewrite E.
  destruct (status =? 200)%Z eqn:E'; [| reflexivity].
  apply Z.eqb_eq in E'. contradiction.
Qed.

(** X15.  A fetch answered with a status other than 200 leaves no trace at
    all: whatever the body, standard output, standard error and exit
    status of [run] are those of the run in which that fetch was answered
    with status 200 and an empty [data] list.  This holds for the device
    fetch and for the client fetch. *)
Theorem silent_status_failure (c : controller) (status : Z)
    (json : result value) :
  status <> 200%Z ->
  run (with_fetches c (Returns status json) (stat_sta c))
    = run (with_fetches c no_records (stat_sta c)) /\
  run (with_fetches c (stat_device c) (Returns status json))
    = run (with_fetches c (stat_device c) no_records).
Proof.
  intros Hs. split; apply run_ext; try reflexivity;
    apply build_inventory_ext; try reflexivity.
  - now rewrite (get_devices_status _ status json Hs).
  - now rewrite (get_clients_status _ status json Hs).
Qed.

Lemma silent_status_failure_witness :
  run (with_fetches small_site (Returns 503 (Raise ValueError))
         (stat_sta small_site))
    = run (with_fetches small_site no_records (stat_sta small_site)) /\
  run (with_fetches small_site (stat_device small_site)
         (Returns 503 (Raise ValueError)))
    = run (with_fetches small_site (stat_device small_site) no_records).
Proof.
  apply (silent_status_failure small_site 503 (Raise ValueError)).
  discriminate.
Defined.

(** X16.  A fetch that raises is reported on standard error.  Once
    authenticated, an exception of the device request, or of reading its
    body, is written after [Failed to fetch devices: ] and no device is
    listed; an exception of the client request or of its body is written
    after [Failed to fetch clients: ], provided the loop over the devices
    came to its end. *)
Theorem fetch_exception_logged (c : controller) (e : exception)
    (devices : list value) :
  fst (authenticate c) = true ->
  fst (get_devices c) = VList devices ->
  (stat_device c = Raises e \/ stat_device c = Returns 200 (Raise e) ->
   devices = [] /\
   In (Failure "Failed to fetch devices: " e) (stderr (run c))) /\
  (stat_sta c = Raises e \/ stat_sta c = Returns 200 (Raise e) ->
   forallb device_accepted devices = true ->
   In (Failure "Failed to fetch clients: " e) (stderr (run c))).
Proof.
  intros Ha Hdev. rewrite run_stderr by exact Ha.
  rewrite build_inventory_stderr, Hdev. cbn [iter bind]. split.
  - intros Hs.
    assert (Hg : get_devices c
                 = (VList [], [Failure "Failed to fetch devices: " e])).
    { unfold get_devices. destruct Hs as [-> | ->]; reflexivity. }
    rewrite Hg in Hdev. cbn in Hdev. injection Hdev as <-.
    split; [reflexivity |]. rewrite Hg. cbn [snd steps].
    apply in_or_app. right. cbn. now left.
  - intros Hs Hacc.
    assert (Hg : snd (get_clients c)
                 = [Failure "Failed to fetch clients: " e]).
    { unfold get_clients. destruct Hs as [-> | ->]; reflexivity. }
    destruct (steps_device_returns devices empty Hacc) as [s Hsteps].
    rewrite Hsteps, Hg.
    apply in_or_app. right. apply in_or_app. left.
    apply in_or_app. right. now left.
Qed.

Lemma fetch_exception_logged_witness :
  (stat_device devices_down = Raises (RequestException "connection refused")
   \/ stat_device devices_down
      = Returns 200 (Raise (RequestException "connection refused")) ->
   @nil value = [] /\
   In (Failure "Failed to fetch devices: "
         (RequestException "connection refused"))
      (stderr (run devices_down))) /\
  (stat_sta devices_down = Raises (RequestException "connection refused")
   \/ stat_sta devices_down
      = Returns 200 (Raise (RequestException "connection refused")) ->
   forallb device_accepted (@nil value) = true ->
   In (Failure "Failed to fetch clients: "
         (RequestException "connection refused"))
      (stderr (run devices_down))).
Proof.
  apply (fetch_exception_logged devices_down
           (RequestException "connection refused") []); reflexivity.
Defined.

(** X17.  A client is listed by the truth value of its [is_wired] field:
    without the field it is in [wireless_clients]; with it, it is in
    [wired_clients] when [bool] of the value is true and in
    [wireless_clients] otherwise, so a non-empty string such as ['false']
    counts as wired. *)
Theorem wired_flag_selects_list (c : controller) (clients : list value)
    (client : list (value * value)) (doc : value) :
  fst (get_clients c) = VList clients ->
  In (VDict client) clients ->
  fst (build_inventory c) = Ok doc ->
  exists wi wl,
    doc_hosts doc "wired_clients" = Ok (VList wi) /\
    doc_hosts doc "wireless_clients" = Ok (VList wl) /\
    (dict_get (VStr "is_wired") client = None ->
     In (client_hostname client) wl) /\
    (forall v, dict_get (VStr "is_wired") client = Some v ->
       if truthy v then In (client_hostname client) wi
       else In (client_hostname client) wl).
Proof.
  intros Hcli Hin H. apply build_inventory_returns in H.
  destruct H as (ds & s & cs & s' & _ & Hd & Hcs & Hc & ->).
  rewrite Hcli in Hcs. cbn in Hcs. injection Hcs as <-.
  exists (hosts s' "wired_clients"), (hosts s' "wireless_clients").
  split; [reflexivity |]. split; [reflexivity |].
  pose proof (fun g => built_hosts ds clients s s' g Hd Hc) as B.
  assert (Hgroup : In (client_hostname client)
                     (hosts s' (client_group (client_is_wired client)))).
  { rewrite B. apply in_or_app. right. apply client_hosts_In.
    now exists client. }
  unfold client_is_wired, field in Hgroup. split.
  - intros E. now rewrite E in Hgroup.
  - intros v E. rewrite E in Hgroup. now destruct (truthy v).
Qed.

Lemma wired_flag_selects_list_witness :
  exists wi wl,
    doc_hosts kiosk_document "wired_clients" = Ok (VList wi) /\
    doc_hosts kiosk_document "wireless_clients" = Ok (VList wl) /\
    (dict_get (VStr "is_wired") kiosk = None ->
     In (client_hostname kiosk) wl) /\
    (forall v, dict_get (VStr "is_wired") kiosk = Some v ->
       if truthy v then In (client_hostname kiosk) wi
       else In (client_hostname kiosk) wl).
Proof.
  apply (wired_flag_selects_list kiosk_site [VDict kiosk; VDict laptop]).
  - reflexivity.
  - cbn. auto.
  - reflexivity.
Defined.

(** X18.  The identifier of a record is its [name] (for a client its
    [hostname]) when [bool] of that value is true, and what [.get('mac')]
    returns otherwise, so an empty or [null] name counts as missing.  With
    one device and one client, [_meta.hostvars] is the device's variables
    under the device's identifier, then the client's assigned under the
    client's. *)
Theorem identifier_rule (c : controller)
    (device client : list (value * value)) (hd hc : value) :
  fst (get_devices c) = VList [VDict device] ->
  fst (get_clients c) = VList [VDict client] ->
  hd = (if truthy (field device "name" VNone)
        then field device "name" VNone else field device "mac" VNone) ->
  hc = (if truthy (field client "hostname" VNone)
        then field client "hostname" VNone else field client "mac" VNone) ->
  hashable hd = true ->
  hashable hc = true ->
  exists doc,
    fst (build_inventory c) = Ok doc /\
    doc_hostvars doc =
      Ok (VDict (dict_set hc (client_vars client)
                   [(hd, device_vars device)])).
Proof.
  intros Hd Hc Ehd Ehc Hhd Hhc.
  change (hd = device_hostname device) in Ehd.
  change (hc = client_hostname client) in Ehc. subst hd hc.
  rewrite build_inventory_assemble, Hd, Hc. unfold assemble.
  cbn [iter bind steps].
  rewrite step_device_dict by exact Hhd. cbn [bind].
  rewrite step_client_dict by exact Hhc. cbn [bind].
  eexists. split; [reflexivity |].
  rewrite doc_hostvars_document, hostvars_push.
  now destruct (device_group (device_type device)).
Qed.

Lemma identifier_rule_witness :
  exists doc,
    fst (build_inventory unnamed_site) = Ok doc /\
    doc_hostvars doc =
      Ok (VDict (dict_set (VStr "cc:dd") (client_vars laptop)
                   [(VStr "aa:03", device_vars unnamed_switch)])).
Proof.
  apply (identifier_rule unnamed_site unnamed_switch laptop); reflexivity.
Defined.
